(** * A LEGv8 disassembler and simulator: the program of [main.go]

    The development embeds the Go program shallowly and states its
    properties about the embedding.

    - Text is a byte string ([string]).  The library functions that decode
      UTF-8 ([strings.TrimSpace] beyond its ASCII table, the rune count of a
      [%.Ns] precision) are modelled on ASCII text, which is all that an
      instruction line of ['0']/['1'] characters exercises.
    - [int] and [int64] are integers of [Z] with the 64-bit wrap-around
      written out ([wrap64]).
    - The two Go maps [registers] and [memory] are finite maps [gmap Z Z];
      a read of an absent key yields the zero value ([readMap]).
    - A run-time panic (index or slice out of range, negative shift count)
      is the result [None].
    - Standard output (the [fmt.Println] debugging lines), the command line
      and the opening of the three files are not modelled: a run starts at
      line 237 with the lines of the input file.

    [main] is embedded with the brace structure that the file has.  Two
    things in it do not type-check as Go and are read in the one way the
    text allows: [binaryNumber], declared in the body of the scanning loop,
    is read after the loop (see [lastBinaryNumber]); and values of type
    [int64] index the maps and are added to [cycle], of type [int], which
    are the same 64-bit integers here. *)

From stdpp Require Import base option list strings gmap pretty.
From Stdlib Require Import ZArith Lia Ascii String.

Local Open Scope string_scope.
Local Open Scope Z_scope.

(** ** Machine integers *)

Definition wrap64 (z : Z) : Z := (z + 2 ^ 63) mod 2 ^ 64 - 2 ^ 63.

Definition wrap32 (z : Z) : Z := (z + 2 ^ 31) mod 2 ^ 32 - 2 ^ 31.

(** [x << n] on [int64]; a count of 64 or more clears the value. *)
Definition shl64 (x n : Z) : Z :=
  if 64 <=? n then 0 else wrap64 (Z.shiftl x n).

(** [x >> n] on [int64] (arithmetic); a count of 64 or more leaves the sign. *)
Definition shr64 (x n : Z) : Z :=
  if 64 <=? n then (if x <? 0 then -1 else 0) else Z.shiftr x n.

(** [x >> n] on [int32]. *)
Definition shr32 (x n : Z) : Z :=
  if 32 <=? n then (if x <? 0 then -1 else 0) else Z.shiftr x n.

(** ** Strings as Go has them *)

Definition TAB : string := String "009"%char "".
Definition NL : string := String "010"%char "".

(** [s[a:b]]: panics unless [a <= b <= len(s)]. *)
Definition slice (s : string) (a b : nat) : option string :=
  if ((a <=? b) && (b <=? String.length s))%nat
  then Some (substring a (b - a) s) else None.

(** [s[i]]: panics unless [i < len(s)]. *)
Definition index (s : string) (i : nat) : option ascii := String.get i s.

(** The verb [%.Ns]: at most the first [n] characters. *)
Definition prec (n : nat) (s : string) : string := substring 0 n s.

(** The verb [%d]. *)
Definition fmtd (z : Z) : string := pretty z.

(** [strings.TrimSpace] on ASCII text: the table [asciiSpace] holds
    tab, line feed, vertical tab, form feed, carriage return and space. *)
Definition asciiSpace (c : ascii) : bool :=
  let n := N_of_ascii c in ((9 <=? n) && (n <=? 13) || (n =? 32))%N.

Fixpoint TrimLeft (s : string) : string :=
  match s with
  | String c s' => if asciiSpace c then TrimLeft s' else s
  | EmptyString => EmptyString
  end.

Fixpoint TrimRight (s : string) : string :=
  match s with
  | String c s' =>
      match TrimRight s' with
      | EmptyString => if asciiSpace c then EmptyString else String c EmptyString
      | t => String c t
      end
  | EmptyString => EmptyString
  end.

Definition TrimSpace (s : string) : string := TrimRight (TrimLeft s).

(** ** [strconv.ParseInt(s, 2, 64)], with the error dropped as every call
    site does ([v, _ := strconv.ParseInt(...)]) *)

Inductive NumResult : Type :=
  | NumOk (n : Z)
  | NumSyntax
  | NumRange.

(** The digit value of a character in [ParseUint]: ['0'..'9'], then
    letters of either case from 10 on. *)
Definition digitVal (c : ascii) : option Z :=
  let n := Z.of_N (N_of_ascii c) in
  let l := Z.lor n 32 in
  if (48 <=? n) && (n <=? 57) then Some (n - 48)
  else if (97 <=? l) && (l <=? 122) then Some (l - 97 + 10)
  else None.

(** The digit loop of [ParseUint] at base 2 and size 64: [cutoff] is
    [2^63] and [maxVal] is [2^64 - 1]. *)
Fixpoint parseUintLoop (s : string) (n : Z) : NumResult :=
  match s with
  | EmptyString => NumOk n
  | String c s' =>
      match digitVal c with
      | None => NumSyntax
      | Some d =>
          if 2 <=? d then NumSyntax
          else if 2 ^ 63 <=? n then NumRange
          else if 2 ^ 64 - 1 <? n * 2 + d then NumRange
          else parseUintLoop s' (n * 2 + d)
      end
  end.

Definition ParseUint (s : string) : NumResult :=
  match s with
  | EmptyString => NumSyntax
  | _ => parseUintLoop s 0
  end.

Definition ParseInt (s : string) : Z :=
  match s with
  | EmptyString => 0
  | String c s' =>
      let neg := Ascii.eqb c "-" in
      let body := if Ascii.eqb c "+" || neg then s' else s in
      match ParseUint body with
      | NumSyntax => 0
      | r =>
          let un := match r with NumOk n => n | _ => 2 ^ 64 - 1 end in
          if negb neg && (2 ^ 63 <=? un) then 2 ^ 63 - 1
          else if neg && (2 ^ 63 <? un) then - 2 ^ 63
          else if neg then wrap64 (- wrap64 un) else wrap64 un
      end
  end.

Definition getRegisterNumber (registerBits : string) : Z := ParseInt registerBits.

(** [uint(shiftAmount) * 16] *)
Definition getShiftAmount (shiftBits : string) : Z :=
  ((ParseInt shiftBits mod 2 ^ 64) * 16) mod 2 ^ 64.

(** ** The opcode tables *)

Definition opcodeTable : gmap string string :=
  list_to_map
    [ ("000101", "B");
      ("10001010000", "AND");
      ("10001011000", "ADD");
      ("1001000100", "ADDI");
      ("10101010000", "ORR");
      ("10110100", "CBZ");
      ("10110101", "CBNZ");
      ("11001011000", "SUB");
      ("1101000100", "SUBI");
      ("110100101", "MOVZ");
      ("111100101", "MOVK");
      ("11010011010", "LSR");
      ("11010011011", "LSL");
      ("11111000000", "STUR");
      ("11111000010", "LDUR");
      ("11010011100", "ASR");
      ("00000000000000000000000000000000", "NOP");
      ("11101010000", "EOR");
      ("11111110110111101111111111100111", "BREAK");
      ("000000", " ") ].

Definition instructionTable : gmap string string :=
  list_to_map
    [ ("B", "B");
      ("AND", "R");
      ("ADD", "R");
      ("ADDI", "I");
      ("ORR", "R");
      ("CBZ", "CB");
      ("CBNZ", "CB");
      ("SUB", "R");
      ("SUBI", "I");
      ("MOVZ", "IM");
      ("MOVK", "IM");
      ("LSR", "SHIFT");
      ("LSL", "SHIFT");
      ("STUR", "D");
      ("LDUR", "D");
      ("ASR", "SHIFT");
      ("NOP", " ");
      ("EOR", "R");
      ("BREAK", "BREAK") ].

(** A Go map read: the zero value [""] for an absent key. *)
Definition opcodeIdentifier (k : string) : string := default "" (opcodeTable !! k).

Definition instructionIdentifier (k : string) : string :=
  default "" (instructionTable !! k).

(** A read of [registers[k]] or [memory[k]]: zero for an absent key. *)
Definition readMap (m : gmap Z Z) (k : Z) : Z := default 0 (m !! k).

(** ** [simulate]

    The function mutates the two maps in place and returns the halt flag;
    here it returns the two maps with the flag. *)

Definition simulate (instructionType : string) (args : list string)
    (registers memory : gmap Z Z) : option (gmap Z Z * gmap Z Z * bool) :=
  if String.eqb instructionType "B" then
    a0 ← args !! 0%nat;
    let offset := wrap64 (ParseInt a0 * 4) in
    Some (<[15 := wrap64 (readMap registers 15 + offset)]> registers, memory, false)
  else if String.eqb instructionType "CB" then
    a1 ← args !! 1%nat;
    let offset := ParseInt a1 in
    a0 ← args !! 0%nat;
    let conditionMet := readMap registers (getRegisterNumber a0) =? 0 in
    a2 ← args !! 2%nat;
    if (String.eqb a2 "0" && conditionMet) || (String.eqb a2 "1" && negb conditionMet)
    then Some (<[15 := wrap64 (readMap registers 15 + wrap64 (offset * 4))]> registers,
               memory, false)
    else Some (registers, memory, false)
  else if String.eqb instructionType "R" then
    a2 ← args !! 2%nat;
    a1 ← args !! 1%nat;
    a0 ← args !! 0%nat;
    let rd := getRegisterNumber a2 in
    let rn := getRegisterNumber a1 in
    let rm := getRegisterNumber a0 in
    a3 ← args !! 3%nat;
    if String.eqb a3 "0000" then
      Some (<[rd := Z.land (readMap registers rn) (readMap registers rm)]> registers, memory, false)
    else if String.eqb a3 "0100" then
      Some (<[rd := wrap64 (readMap registers rn + readMap registers rm)]> registers, memory, false)
    else if String.eqb a3 "1100" then
      Some (<[rd := wrap64 (readMap registers rn - readMap registers rm)]> registers, memory, false)
    else if String.eqb a3 "0001" then
      Some (<[rd := Z.lxor (readMap registers rn) (readMap registers rm)]> registers, memory, false)
    else Some (registers, memory, false)
  else if String.eqb instructionType "IM" then
    a2 ← args !! 2%nat;
    let rd := getRegisterNumber a2 in
    a0 ← args !! 0%nat;
    let immediate := ParseInt a0 in
    a1 ← args !! 1%nat;
    let shiftAmount := getShiftAmount a1 in
    Some (<[rd := shl64 immediate shiftAmount]> registers, memory, false)
  else if String.eqb instructionType "SHIFT" then
    a2 ← args !! 2%nat;
    a1 ← args !! 1%nat;
    a0 ← args !! 0%nat;
    let rd := getRegisterNumber a2 in
    let rn := getRegisterNumber a1 in
    let shiftAmount := ParseInt a0 in
    a3 ← args !! 3%nat;
    if String.eqb a3 "0010" then
      if shiftAmount <? 0 then None
      else Some (<[rd := shr64 (readMap registers rn) shiftAmount]> registers, memory, false)
    else if String.eqb a3 "0011" then
      if shiftAmount <? 0 then None
      else Some (<[rd := shl64 (readMap registers rn) shiftAmount]> registers, memory, false)
    else if String.eqb a3 "1010" then
      if shiftAmount <? 0 then None
      else Some (<[rd := shr64 (readMap registers rn) shiftAmount]> registers, memory, false)
    else Some (registers, memory, false)
  else if String.eqb instructionType "D" then
    a2 ← args !! 2%nat;
    a0 ← args !! 0%nat;
    a1 ← args !! 1%nat;
    let rd := getRegisterNumber a2 in
    let rn := getRegisterNumber a0 in
    let offset := ParseInt a1 in
    let address := wrap64 (readMap registers rn + offset) in
    Some (registers, <[address := readMap registers rd]> memory, false)
  else if String.eqb instructionType "I" then
    a2 ← args !! 2%nat;
    a1 ← args !! 1%nat;
    a0 ← args !! 0%nat;
    let rd := getRegisterNumber a2 in
    let rn := getRegisterNumber a1 in
    let immediate := ParseInt a0 in
    Some (<[rd := wrap64 (readMap registers rn + immediate)]> registers, memory, false)
  else if String.eqb instructionType " " then
    Some (registers, memory, false)
  else if String.eqb instructionType "BREAK" then
    Some (registers, memory, true)
  else Some (registers, memory, false).

(** ** The state of [main]

    The local variables of [main] that the loop and the decode chain share,
    and the two output files as the sequence of what was written to them. *)

(** A write to the simulation file: a text, or one call of [printState],
    recorded with its arguments (the function ranges over the [memory] map,
    whose iteration order Go leaves unspecified, so its text is not fixed
    by the arguments). *)
Inductive SimEntry : Type :=
  | SimText (s : string)
  | SimState (cycle instructionAddr : Z) (instruction : string)
             (registers memory : gmap Z Z).

Record Machine : Type := mkMachine {
  registers : gmap Z Z;
  memory : gmap Z Z;
  outputFile : list string;
  simOutputFile : list SimEntry;
  memLocation : Z;
  cycle : Z;
  breakFound : bool
}.

Definition setRegister (k v : Z) (st : Machine) : Machine :=
  mkMachine (<[k := v]> (registers st)) (memory st) (outputFile st)
            (simOutputFile st) (memLocation st) (cycle st) (breakFound st).

Definition setMemory (k v : Z) (st : Machine) : Machine :=
  mkMachine (registers st) (<[k := v]> (memory st)) (outputFile st)
            (simOutputFile st) (memLocation st) (cycle st) (breakFound st).

(** [outputFile.WriteString(s)] *)
Definition writeOutput (s : string) (st : Machine) : Machine :=
  mkMachine (registers st) (memory st) (outputFile st ++ [s])
            (simOutputFile st) (memLocation st) (cycle st) (breakFound st).

Definition writeSim (e : SimEntry) (st : Machine) : Machine :=
  mkMachine (registers st) (memory st) (outputFile st)
            (simOutputFile st ++ [e]) (memLocation st) (cycle st) (breakFound st).

Definition setMemLocation (v : Z) (st : Machine) : Machine :=
  mkMachine (registers st) (memory st) (outputFile st)
            (simOutputFile st) v (cycle st) (breakFound st).

Definition setCycle (v : Z) (st : Machine) : Machine :=
  mkMachine (registers st) (memory st) (outputFile st)
            (simOutputFile st) (memLocation st) v (breakFound st).

Definition setBreakFound (b : bool) (st : Machine) : Machine :=
  mkMachine (registers st) (memory st) (outputFile st)
            (simOutputFile st) (memLocation st) (cycle st) b.

(** [printState]: a read of the state, one entry in the simulation file. *)
Definition printState (cycle_ instructionAddr : Z) (instruction : string)
    (st : Machine) : Machine :=
  writeSim (SimState cycle_ instructionAddr instruction (registers st) (memory st)) st.

Definition cat (l : list string) : string := foldr String.append "" l.

(** ** The texts of the disassembly file *)

Definition invalidString (binaryNumber : string) : string :=
  cat [prec 32 binaryNumber; " Invalid binary string! "; NL].

Definition afterBreakLine (binaryNumber : string) (memLocation_ decimalVal : Z) : string :=
  cat [prec 32 binaryNumber; " "; TAB; TAB; fmtd memLocation_; TAB; fmtd decimalVal; " "; NL].

Definition rFormat (opcode rm shamt rn rd : string) (memLocation_ : Z)
    (mnemonic : string) (r3 r1 r2 : Z) : string :=
  cat [prec 11 opcode; " "; prec 5 rm; " "; prec 6 shamt; " "; prec 5 rn; " ";
       prec 5 rd; " "; TAB; fmtd memLocation_; TAB; mnemonic; TAB;
       "R"; fmtd r3; ", R"; fmtd r1; ", R"; fmtd r2; " "; NL].

Definition lsFormat (opcode rm shamt rn rd : string) (memLocation_ : Z)
    (mnemonic : string) (r3 r1 sh : Z) : string :=
  cat [prec 11 opcode; " "; prec 5 rm; " "; prec 6 shamt; " "; prec 5 rn; " ";
       prec 5 rd; " "; TAB; fmtd memLocation_; TAB; mnemonic; TAB;
       "R"; fmtd r3; ", R"; fmtd r1; ", #"; fmtd sh; " "; NL].

Definition dFormat (opcode address op2 rn rt : string) (memLocation_ : Z)
    (mnemonic : string) (r3 r1 r2 : Z) : string :=
  cat [prec 11 opcode; " "; prec 9 address; " "; prec 2 op2; " "; prec 5 rn; " ";
       prec 5 rt; " "; TAB; fmtd memLocation_; TAB; mnemonic; TAB;
       "R"; fmtd r3; ", [R"; fmtd r1; ", #"; fmtd r2; "] "; NL].

Definition iFormat (opcode immediate rn rd : string) (memLocation_ : Z)
    (mnemonic : string) (r3 r1 r2 : Z) : string :=
  cat [prec 10 opcode; " "; prec 12 immediate; " "; prec 5 rn; " "; prec 5 rd; " ";
       TAB; fmtd memLocation_; TAB; mnemonic; TAB;
       "R"; fmtd r3; ", R"; fmtd r1; ", #"; fmtd r2; " "; NL].

Definition bFormat (opcode offset : string) (memLocation_ : Z)
    (mnemonic : string) (r2 : Z) : string :=
  cat [prec 6 opcode; " "; prec 26 offset; " "; TAB; fmtd memLocation_; TAB;
       mnemonic; TAB; "#"; fmtd r2; " "; NL].

Definition cbFormat (opcode offset conditional : string) (memLocation_ : Z)
    (mnemonic : string) (r1 r2 : Z) : string :=
  cat [prec 8 opcode; " "; prec 19 offset; " "; prec 5 conditional; " "; TAB;
       fmtd memLocation_; TAB; mnemonic; TAB; "R"; fmtd r1; ", #"; fmtd r2; " "; NL].

Definition imFormat (opcode shiftCode field rd : string) (memLocation_ : Z)
    (mnemonic : string) (im_rd im_field shifted : Z) : string :=
  cat [prec 9 opcode; " "; prec 2 shiftCode; " "; prec 16 field; " "; prec 5 rd; " ";
       TAB; fmtd memLocation_; TAB; mnemonic; TAB;
       "R"; fmtd im_rd; ", "; fmtd im_field; ", LSL "; fmtd shifted; " "; NL].

Definition nopFormat (binaryNumber : string) (memLocation_ : Z) (mnemonic : string) : string :=
  cat [prec 32 binaryNumber; " "; TAB; TAB; fmtd memLocation_; TAB; mnemonic; " "; NL].

Definition breakFormat (b1 b2 b3 b4 b5 b6 b7 : string) (memLocation_ : Z)
    (mnemonic : string) : string :=
  cat [prec 1 b1; " "; prec 5 b2; " "; prec 5 b3; " "; prec 5 b4; " "; prec 5 b5; " ";
       prec 5 b6; " "; prec 6 b7; " "; TAB; fmtd memLocation_; TAB; mnemonic; " "; NL].

Definition opcodeUnknown (b1 b2 b3 b4 b5 b6 : string) : string :=
  cat [prec 8 b1; " "; prec 3 b2; " "; prec 5 b3; " "; prec 5 b4; " "; prec 5 b5; " ";
       prec 6 b6; " "; TAB; "Unknown Instruction!"; NL].

Definition simOutput (cycle_ memLocation_ : Z) (mnemonic : string) : string :=
  cat ["====================="; NL; "cycle:"; fmtd cycle_; " "; fmtd memLocation_; " ";
       mnemonic; NL; "registers:"; NL].

(** ** The decode chain of [main], block by block

    Each definition is one brace block of [main], a function of the line
    [binaryNumber] and of the state; the line numbers are those of
    [main.go].  The way the blocks nest is that of the braces in the file
    ([decode], [blockR], [blockI], [chainI]). *)

Definition is1 (c : ascii) : bool := Ascii.eqb c "1".

(** The pattern [if binaryNumber[k] == '1' { v -= int64(math.Pow(2, w)) }]. *)
Definition subLead1 (c : ascii) (w v : Z) : Z :=
  if is1 c then wrap64 (v - 2 ^ w) else v.

Definition mnemonicIs (opcode m : string) : bool :=
  String.eqb (opcodeIdentifier opcode) m.

Definition formatIs (opcode f : string) : bool :=
  String.eqb (instructionIdentifier (opcodeIdentifier opcode)) f.

(** Lines 257-263. *)
Definition blockAfterBreak (binaryNumber : string) (st : Machine) : option Machine :=
  let decimalVal := ParseInt binaryNumber in
  c ← index binaryNumber 0;
  let decimalVal := subLead1 c 32 decimalVal in
  Some (writeOutput (afterBreakLine binaryNumber (memLocation st) decimalVal) st).

(** Lines 446-448. *)
Definition blockUnknown (binaryNumber : string) (st : Machine) : option Machine :=
  b1 ← slice binaryNumber 0 8;
  b2 ← slice binaryNumber 8 11;
  b3 ← slice binaryNumber 11 16;
  b4 ← slice binaryNumber 16 21;
  b5 ← slice binaryNumber 21 26;
  b6 ← slice binaryNumber 26 32;
  Some (writeOutput (opcodeUnknown b1 b2 b3 b4 b5 b6) st).

(** Lines 439-443. *)
Definition blockBREAK (binaryNumber : string) (st : Machine) : option Machine :=
  b1 ← slice binaryNumber 0 1;
  b2 ← slice binaryNumber 1 6;
  b3 ← slice binaryNumber 6 11;
  b4 ← slice binaryNumber 11 16;
  b5 ← slice binaryNumber 16 21;
  b6 ← slice binaryNumber 21 26;
  b7 ← slice binaryNumber 26 32;
  let line := breakFormat b1 b2 b3 b4 b5 b6 b7 (memLocation st)
                (opcodeIdentifier binaryNumber) in
  Some (writeOutput line (setBreakFound true st)).

(** Lines 434-435. *)
Definition blockNOP (binaryNumber : string) (st : Machine) : option Machine :=
  Some (writeOutput
          (nopFormat binaryNumber (memLocation st) (opcodeIdentifier binaryNumber)) st).

(** Lines 410-430. *)
Definition blockIM (binaryNumber : string) (st : Machine) : option Machine :=
  opcode ← slice binaryNumber 0 9;
  shiftCode ← slice binaryNumber 9 11;
  field ← slice binaryNumber 11 27;
  rd ← slice binaryNumber 27 32;
  let im_shift := ParseInt shiftCode in
  let shifted := wrap64 (im_shift * 16) in
  let im_field := ParseInt field in
  let im_rd := ParseInt rd in
  st1 ← (if mnemonicIs opcode "MOVZ" then
           if shifted <? 0 then None
           else Some (setRegister im_rd (shl64 im_field shifted) st)
         else if mnemonicIs opcode "MOVK" then
           if shifted <? 0 then None
           else
             let mask := shl64 65535 shifted in
             Some (setRegister im_rd
                     (Z.lor (Z.ldiff (readMap (registers st) im_rd) mask)
                            (shl64 im_field shifted)) st)
         else Some st);
  Some (writeOutput
          (imFormat opcode shiftCode field rd (memLocation st1)
             (opcodeIdentifier opcode) im_rd im_field shifted) st1).

(** Lines 385-407. *)
Definition blockCB (binaryNumber : string) (st : Machine) : option Machine :=
  opcode ← slice binaryNumber 0 8;
  offset ← slice binaryNumber 8 27;
  conditional ← slice binaryNumber 27 32;
  let r2 := ParseInt offset in
  let r1 := ParseInt conditional in
  c ← index binaryNumber 8;
  let r2 := subLead1 c 19 r2 in
  let st1 :=
    if mnemonicIs opcode "CBNZ" && negb (readMap (registers st) r1 =? 0) then
      setCycle (wrap64 (cycle st + r2)) st
    else if mnemonicIs opcode "CBZ" && (readMap (registers st) r1 =? 0) then
      setCycle (wrap64 (cycle st + r2)) st
    else st in
  Some (writeOutput
          (cbFormat opcode offset conditional (memLocation st1)
             (opcodeIdentifier opcode) r1 r2) st1).

(** Lines 364-382. *)
Definition blockB (binaryNumber : string) (st : Machine) : option Machine :=
  opcode ← slice binaryNumber 0 6;
  offset ← slice binaryNumber 6 32;
  let r2 := ParseInt offset in
  c ← index binaryNumber 6;
  let r2 := subLead1 c 26 r2 in
  let st1 :=
    if mnemonicIs opcode "B" then setCycle (wrap64 (cycle st + r2)) st else st in
  Some (writeOutput
          (bFormat opcode offset (memLocation st1) (opcodeIdentifier opcode) r2) st1).

(** Lines 353-449: the chain that starts at [if opcodeIdentifier[opcode] ==
    "ADDI"] inside the I-format block, and that the B, CB, IM, NOP, BREAK
    and unknown-instruction blocks continue. *)
Definition chainI (binaryNumber opcode immediate rn rd : string) (r1 r2 r3 : Z)
    (st : Machine) : option Machine :=
  if mnemonicIs opcode "ADDI" then
    Some (setRegister r3 (wrap64 (readMap (registers st) r1 + r2)) st)
  else if mnemonicIs opcode "SUBI" then
    let st1 := setRegister r3 (wrap64 (readMap (registers st) r1 - r2)) st in
    Some (writeOutput
            (iFormat opcode immediate rn rd (memLocation st1)
               (opcodeIdentifier opcode) r3 r1 r2) st1)
  else
    b6 ← slice binaryNumber 0 6;
    if formatIs b6 "B" then blockB binaryNumber st
    else
      b8 ← slice binaryNumber 0 8;
      if formatIs b8 "CB" then blockCB binaryNumber st
      else
        b9 ← slice binaryNumber 0 9;
        if formatIs b9 "IM" then blockIM binaryNumber st
        else if mnemonicIs binaryNumber "NOP" then blockNOP binaryNumber st
        else if mnemonicIs binaryNumber "BREAK" then blockBREAK binaryNumber st
        else blockUnknown binaryNumber st.

(** Lines 451-458: the trace and the two counters, at the end of the
    I-format block. *)
Definition traceAndAdvance (binaryNumber : string) (st : Machine) : option Machine :=
  b11 ← slice binaryNumber 0 11;
  let st1 :=
    writeSim (SimText (simOutput (cycle st) (memLocation st) (opcodeIdentifier b11))) st in
  let st2 := printState (cycle st1) (memLocation st1) (opcodeIdentifier b11) st1 in
  let st3 := setMemLocation (wrap64 (memLocation st2 + 4)) st2 in
  Some (setCycle (wrap64 (cycle st3 + 1)) st3).

(** Lines 338-458. *)
Definition blockI (binaryNumber : string) (st : Machine) : option Machine :=
  opcode ← slice binaryNumber 0 10;
  immediate ← slice binaryNumber 10 22;
  rn ← slice binaryNumber 22 27;
  rd ← slice binaryNumber 27 32;
  let r2 := ParseInt immediate in
  let r1 := ParseInt rn in
  let r3 := ParseInt rd in
  c ← index binaryNumber 10;
  let r2 := subLead1 c 12 r2 in
  st1 ← chainI binaryNumber opcode immediate rn rd r1 r2 r3 st;
  traceAndAdvance binaryNumber st1.

(** Lines 316-335. *)
Definition blockD (binaryNumber : string) (st : Machine) : option Machine :=
  opcode ← slice binaryNumber 0 11;
  address ← slice binaryNumber 11 20;
  op2 ← slice binaryNumber 20 22;
  rn ← slice binaryNumber 22 27;
  rt ← slice binaryNumber 27 32;
  let r2 := ParseInt address in
  let r1 := ParseInt rn in
  let r3 := ParseInt rt in
  let st1 :=
    if mnemonicIs opcode "LDR" then
      setRegister r3 (readMap (memory st) (wrap64 (r1 + r2))) st
    else if mnemonicIs opcode "STR" then
      setMemory (wrap64 (r1 + r2)) (readMap (registers st) r3) st
    else st in
  Some (writeOutput
          (dFormat opcode address op2 rn rt (memLocation st1)
             (opcodeIdentifier opcode) r3 r1 r2) st1).

(** Lines 292-313. *)
Definition blockSHIFT (binaryNumber : string) (st : Machine) : option Machine :=
  opcode ← slice binaryNumber 0 11;
  rm ← slice binaryNumber 11 16;
  shamt ← slice binaryNumber 16 22;
  rn ← slice binaryNumber 22 27;
  rd ← slice binaryNumber 27 32;
  let r1 := ParseInt rn in
  let r3 := ParseInt rd in
  let sh := ParseInt shamt in
  st1 ← (if mnemonicIs opcode "LSL" then
           if sh <? 0 then None
           else Some (setRegister r3 (shl64 (readMap (registers st) r1) sh) st)
         else if mnemonicIs opcode "LSR" then
           if sh <? 0 then None
           else Some (setRegister r3 (shr64 (readMap (registers st) r1) sh) st)
         else if mnemonicIs opcode "ASR" then
           if sh <? 0 then None
           else Some (setRegister r3 (shr32 (wrap32 (readMap (registers st) r1)) sh) st)
         else Some st);
  Some (writeOutput
          (lsFormat opcode rm shamt rn rd (memLocation st1)
             (opcodeIdentifier opcode) r3 r1 sh) st1).

(** Lines 265-462: the R-format block.  The chain that starts at
    [if opcodeIdentifier[opcode] == "ADD"] is continued by the SHIFT, D and
    I blocks; [simOutputFile.Close()] at its end writes nothing. *)
Definition blockR (binaryNumber : string) (st : Machine) : option Machine :=
  opcode ← slice binaryNumber 0 11;
  rm ← slice binaryNumber 11 16;
  shamt ← slice binaryNumber 16 22;
  rn ← slice binaryNumber 22 27;
  rd ← slice binaryNumber 27 32;
  let r2 := ParseInt rm in
  let r1 := ParseInt rn in
  let r3 := ParseInt rd in
  let a := readMap (registers st) r1 in
  let b := readMap (registers st) r2 in
  if mnemonicIs opcode "ADD" then Some (setRegister r3 (wrap64 (a + b)) st)
  else if mnemonicIs opcode "SUB" then Some (setRegister r3 (wrap64 (a - b)) st)
  else if mnemonicIs opcode "AND" then Some (setRegister r3 (Z.land a b) st)
  else if mnemonicIs opcode "ORR" then Some (setRegister r3 (Z.lor a b) st)
  else if mnemonicIs opcode "EOR" then
    let st1 := setRegister r3 (Z.lxor a b) st in
    Some (writeOutput
            (rFormat opcode rm shamt rn rd (memLocation st1)
               (opcodeIdentifier opcode) r3 r1 r2) st1)
  else
    b11 ← slice binaryNumber 0 11;
    if formatIs b11 "SHIFT" then blockSHIFT binaryNumber st
    else if formatIs b11 "D" then blockD binaryNumber st
    else
      b10 ← slice binaryNumber 0 10;
      if formatIs b10 "I" then blockI binaryNumber st
      else Some st.

(** Lines 256-463: what follows the scanning loop. *)
Definition decode (binaryNumber : string) (st : Machine) : option Machine :=
  if breakFound st then blockAfterBreak binaryNumber st
  else
    b11 ← slice binaryNumber 0 11;
    if formatIs b11 "R" then blockR binaryNumber st
    else Some st.

(** ** The scanning loop and [main]

    Lines 245-253: the body of the loop is the length check alone.  The
    input file is the list of its lines, as [bufio.Scanner] yields them. *)

Definition scanLine (line : string) (st : Machine) : Machine :=
  let binaryNumber := TrimSpace line in
  if negb (String.length binaryNumber =? 32)%nat
  then writeOutput (invalidString binaryNumber) st
  else st.

Definition scanLoop (lines : list string) (st : Machine) : Machine :=
  foldl (fun st line => scanLine line st) st lines.

(** Lines 237-242. *)
Definition initial : Machine := mkMachine ∅ ∅ [] [] 96 1 false.

(** [binaryNumber] is declared in the body of the loop (line 247) and read
    by the chain after it (lines 256-463); the chain is given the value of
    the last iteration, which is what the declaration moved in front of the
    loop yields (the empty string when the file has no line). *)
Definition lastBinaryNumber (lines : list string) : string :=
  TrimSpace (List.last lines "").

Definition main (lines : list string) : option Machine :=
  decode (lastBinaryNumber lines) (scanLoop lines initial).

(** ** Auxiliary notions for the statements *)

(** The state with its disassembly file replaced. *)
Definition withOutput (o : list string) (st : Machine) : Machine :=
  mkMachine (registers st) (memory st) o
            (simOutputFile st) (memLocation st) (cycle st) (breakFound st).

(** The test of line 248 on a raw line. *)
Definition malformed (line : string) : bool :=
  negb (String.length (TrimSpace line) =? 32)%nat.

(** The diagnostics that the lines of a file call for, in order. *)
Definition diagnostics (lines : list string) : list string :=
  List.map (fun line => invalidString (TrimSpace line)) (List.filter malformed lines).

(** ** Bit strings

    An instruction is a line of 32 characters ['0'] and ['1']; [binval] is
    the unsigned number that a bit string denotes. *)

Definition isBit (c : ascii) : bool := Ascii.eqb c "0" || Ascii.eqb c "1".

Fixpoint bits (s : string) : bool :=
  match s with
  | EmptyString => true
  | String c s' => isBit c && bits s'
  end.

Fixpoint binval (s : string) (acc : Z) : Z :=
  match s with
  | EmptyString => acc
  | String c s' => binval s' (acc * 2 + (if is1 c then 1 else 0))
  end.

(** A run of white space. *)
Fixpoint allSpace (s : string) : bool :=
  match s with
  | EmptyString => true
  | String c s' => asciiSpace c && allSpace s'
  end.

(** The bit groups of a line of the disassembly file: the text in front of
    the first tab, without its spaces. *)
Fixpoint beforeTab (s : string) : string :=
  match s with
  | EmptyString => EmptyString
  | String c s' => if Ascii.eqb c "009" then EmptyString else String c (beforeTab s')
  end.

Fixpoint removeSpaces (s : string) : string :=
  match s with
  | EmptyString => EmptyString
  | String c s' => if Ascii.eqb c " " then removeSpaces s' else String c (removeSpaces s')
  end.

Definition listedBits (line : string) : string := removeSpaces (beforeTab line).

(** ** [printState]: what it writes in front of the memory

    Lines 162-173, one element for each call of [WriteString]; the loop over
    the memory (lines 175-183) follows, in the order in which Go ranges over
    the map. *)

(** The verb [%02d]. *)
Definition fmt02d (z : Z) : string :=
  if (0 <=? z) && (z <? 10) then "0" ++ fmtd z else fmtd z.

(** Lines 166-170: one row of eight registers from [i] on. *)
Definition registerRow (registers : gmap Z Z) (i : Z) : list string :=
  [cat ["r"; fmt02d i; ":"; TAB]]
  ++ ((fun j => cat [fmtd (readMap registers j); TAB]) <$> seqZ i 8)
  ++ [NL].

Definition printStateRegisters (cycle_ instructionAddr : Z) (instruction : string)
    (registers : gmap Z Z) : list string :=
  [cat ["===================="; NL];
   cat ["cycle: "; fmtd cycle_; TAB; "instruction address: "; fmtd instructionAddr;
        TAB; "instruction string: "; instruction; NL; NL];
   cat ["registers:"; NL]]
  ++ List.concat (registerRow registers <$> [0; 8; 16; 24])
  ++ [NL; cat ["data:"; NL]].

(** * Properties *)

(** ** Machine integers *)

Lemma wrap64_range z : - 2 ^ 63 <= wrap64 z < 2 ^ 63.
Proof. unfold wrap64. pose proof (Z.mod_pos_bound (z + 2 ^ 63) (2 ^ 64)). lia. Qed.

Lemma wrap64_id z : - 2 ^ 63 <= z < 2 ^ 63 -> wrap64 z = z.
Proof. intros H. unfold wrap64. rewrite Z.mod_small; lia. Qed.

Lemma wrap64_mod z : wrap64 z mod 2 ^ 64 = z mod 2 ^ 64.
Proof.
  unfold wrap64. rewrite Zminus_mod_idemp_l. f_equal. lia.
Qed.

Lemma testbit_wrap64 z i : 0 <= i < 64 -> Z.testbit (wrap64 z) i = Z.testbit z i.
Proof.
  intros Hi.
  rewrite <- (Z.mod_pow2_bits_low (wrap64 z) 64 i) by lia.
  rewrite <- (Z.mod_pow2_bits_low z 64 i) by lia.
  now rewrite wrap64_mod.
Qed.

(** ** Bit strings and [ParseInt] *)

Lemma binval_bounds s n :
  n * 2 ^ Z.of_nat (String.length s) <= binval s n
  < (n + 1) * 2 ^ Z.of_nat (String.length s).
Proof.
  revert n. induction s as [|c s IH]; intros n.
  - simpl. lia.
  - cbn [binval String.length]. rewrite Nat2Z.inj_succ, Z.pow_succ_r by lia.
    specialize (IH (n * 2 + (if is1 c then 1 else 0))).
    destruct (is1 c); nia.
Qed.

Lemma isBit_digitVal c :
  isBit c = true -> digitVal c = Some (if is1 c then 1 else 0).
Proof.
  unfold isBit, is1. intros H. apply orb_true_iff in H.
  destruct H as [H|H]; apply Ascii.eqb_eq in H; subst c; reflexivity.
Qed.

Lemma parseUintLoop_bits s n :
  bits s = true -> 0 <= n ->
  (n + 1) * 2 ^ Z.of_nat (String.length s) <= 2 ^ 63 ->
  parseUintLoop s n = NumOk (binval s n).
Proof.
  revert n. induction s as [|c s IH]; intros n Hb Hn Hlen.
  - reflexivity.
  - cbn [bits] in Hb. apply andb_true_iff in Hb. destruct Hb as [Hc Hs].
    cbn [String.length] in Hlen. rewrite Nat2Z.inj_succ, Z.pow_succ_r in Hlen by lia.
    assert (Hp : 0 < 2 ^ Z.of_nat (String.length s)) by (apply Z.pow_pos_nonneg; lia).
    cbn [parseUintLoop binval]. rewrite (isBit_digitVal c Hc).
    set (d := if is1 c then 1 else 0).
    assert (Hd : 0 <= d <= 1) by (subst d; destruct (is1 c); lia).
    destruct (2 <=? d) eqn:E1; [apply Z.leb_le in E1; lia|].
    destruct (2 ^ 63 <=? n) eqn:E2; [apply Z.leb_le in E2; nia|].
    apply Z.leb_gt in E2.
    destruct (2 ^ 64 - 1 <? n * 2 + d) eqn:E3; [apply Z.ltb_lt in E3; lia|].
    apply IH; [assumption | lia | nia].
Qed.

Lemma ParseInt_bits s :
  bits s = true -> (String.length s <= 62)%nat -> ParseInt s = binval s 0.
Proof.
  intros Hb Hlen. destruct s as [|c s]; [reflexivity|].
  pose proof (binval_bounds (String c s) 0) as Hbd.
  assert (Hpow : 2 ^ Z.of_nat (String.length (String c s)) <= 2 ^ 62)
    by (apply Z.pow_le_mono_r; lia).
  assert (Hsign : Ascii.eqb c "+" = false /\ Ascii.eqb c "-" = false).
  { cbn [bits] in Hb. apply andb_true_iff in Hb. destruct Hb as [Hc _].
    unfold isBit in Hc. apply orb_true_iff in Hc.
    destruct Hc as [H|H]; apply Ascii.eqb_eq in H; subst c; split; reflexivity. }
  destruct Hsign as [Hp Hm].
  unfold ParseInt. rewrite Hp, Hm. cbn [orb negb andb].
  unfold ParseUint. rewrite parseUintLoop_bits; [|assumption|lia|lia].
  destruct (2 ^ 63 <=? binval (String c s) 0) eqn:E; [apply Z.leb_le in E; lia|].
  apply wrap64_id. lia.
Qed.

Lemma ParseInt_bits_range s :
  bits s = true -> (String.length s <= 62)%nat ->
  0 <= ParseInt s < 2 ^ Z.of_nat (String.length s).
Proof.
  intros Hb Hlen. rewrite ParseInt_bits by assumption.
  pose proof (binval_bounds s 0). lia.
Qed.

(** ** Slices of a line *)

Lemma substring_length s : forall a n,
  (a + n <= String.length s)%nat -> String.length (substring a n s) = n.
Proof.
  induction s as [|c s IH]; intros a n H.
  - cbn [String.length] in H. assert (a = 0%nat) by lia. assert (n = 0%nat) by lia.
    subst. reflexivity.
  - destruct a as [|a].
    + destruct n as [|n]; [reflexivity|]. cbn [substring String.length].
      f_equal. apply IH. cbn [String.length] in H. lia.
    + cbn [substring]. apply IH. cbn [String.length] in H. lia.
Qed.

Lemma substring_bits s : forall a n, bits s = true -> bits (substring a n s) = true.
Proof.
  induction s as [|c s IH]; intros a n H.
  - destruct a, n; reflexivity.
  - cbn [bits] in H. apply andb_true_iff in H. destruct H as [Hc Hs].
    destruct a as [|a].
    + destruct n as [|n]; [reflexivity|]. cbn [substring bits].
      rewrite Hc. cbn [andb]. apply IH. assumption.
    + cbn [substring]. apply IH. assumption.
Qed.

Lemma slice_ok s a b :
  (a <= b)%nat -> (b <= String.length s)%nat ->
  slice s a b = Some (substring a (b - a) s).
Proof.
  intros H1 H2. unfold slice.
  destruct (a <=? b)%nat eqn:E1; [|apply Nat.leb_gt in E1; lia].
  destruct (b <=? String.length s)%nat eqn:E2; [|apply Nat.leb_gt in E2; lia].
  reflexivity.
Qed.

Lemma index_ok s i :
  (i < String.length s)%nat -> exists c, index s i = Some c.
Proof.
  unfold index. revert i. induction s as [|c s IH]; intros i H.
  - cbn [String.length] in H. lia.
  - destruct i as [|i]; [eexists; reflexivity|].
    cbn [String.get]. apply IH. cbn [String.length] in H. lia.
Qed.

Lemma mnemonicIs_excl opcode m m' :
  mnemonicIs opcode m = true -> m <> m' -> mnemonicIs opcode m' = false.
Proof.
  unfold mnemonicIs. intros H Hne. apply String.eqb_eq in H. rewrite H.
  apply String.eqb_neq. exact Hne.
Qed.

Ltac slices Hlen :=
  rewrite ?slice_ok by (rewrite ?Hlen; lia); cbn [mbind option_bind Nat.sub].

(** ** The R format *)





(** ** What the chain after the loop reaches *)

Lemma instructionIdentifier_R m :
  instructionIdentifier m = "R" -> m ∈ ["AND"; "ADD"; "ORR"; "SUB"; "EOR"].
Proof.
  unfold instructionIdentifier.
  destruct (instructionTable !! m) as [f|] eqn:E; cbn; [|discriminate].
  intros ->. apply elem_of_list_to_map_2 in E.
  repeat (apply elem_of_cons in E; destruct E as [E|E];
          [injection E as ->; try discriminate; set_solver|]).
  apply elem_of_nil in E. destruct E.
Qed.

Lemma formatIs_R opcode :
  formatIs opcode "R" = true ->
  mnemonicIs opcode "ADD" = true \/ mnemonicIs opcode "SUB" = true
  \/ mnemonicIs opcode "AND" = true \/ mnemonicIs opcode "ORR" = true
  \/ mnemonicIs opcode "EOR" = true.
Proof.
  unfold formatIs, mnemonicIs. intros H. apply String.eqb_eq in H.
  apply instructionIdentifier_R in H.
  repeat (apply elem_of_cons in H; destruct H as [H|H]; [rewrite H; cbn; tauto|]).
  apply elem_of_nil in H. destruct H.
Qed.

(** The chain does not read the disassembly file: it only appends to it. *)
Lemma decode_output binaryNumber st o :
  breakFound st = false ->
  decode binaryNumber (withOutput o st)
  = (fun r => withOutput (o ++ drop (List.length (outputFile st)) (outputFile r))%list r)
      <$> decode binaryNumber st.
Proof.
  intros Hbf. unfold decode. cbn [breakFound withOutput]. rewrite Hbf.
  destruct (slice binaryNumber 0 11) as [b11|] eqn:E11; cbn; [|reflexivity].
  destruct (formatIs b11 "R") eqn:HR; cbn.
  - unfold blockR. rewrite E11. cbn.
    destruct (slice binaryNumber 11 16) as [rm|]; cbn; [|reflexivity].
    destruct (slice binaryNumber 16 22) as [shamt|]; cbn; [|reflexivity].
    destruct (slice binaryNumber 22 27) as [rn|]; cbn; [|reflexivity].
    destruct (slice binaryNumber 27 32) as [rd|]; cbn; [|reflexivity].
    apply formatIs_R in HR.
    destruct (mnemonicIs b11 "ADD") eqn:E1;
      [cbn; unfold withOutput, setRegister; cbn; now rewrite drop_all, app_nil_r|].
    destruct (mnemonicIs b11 "SUB") eqn:E2;
      [cbn; unfold withOutput, setRegister; cbn; now rewrite drop_all, app_nil_r|].
    destruct (mnemonicIs b11 "AND") eqn:E3;
      [cbn; unfold withOutput, setRegister; cbn; now rewrite drop_all, app_nil_r|].
    destruct (mnemonicIs b11 "ORR") eqn:E4;
      [cbn; unfold withOutput, setRegister; cbn; now rewrite drop_all, app_nil_r|].
    destruct (mnemonicIs b11 "EOR") eqn:E5;
      [cbn; unfold withOutput, setRegister, writeOutput; cbn;
       now rewrite drop_app_length|].
    exfalso. intuition discriminate.
  - unfold withOutput. cbn. now rewrite drop_all, app_nil_r.
Qed.

(** Of the blocks of the chain, [main] reaches the five R-format branches
    only: it writes no memory cell and no trace, leaves the two counters
    and [breakFound] as they are, and adds at most one line to the
    disassembly file. *)
Lemma decode_reach binaryNumber st st' :
  breakFound st = false ->
  decode binaryNumber st = Some st' ->
  memory st' = memory st /\ simOutputFile st' = simOutputFile st
  /\ memLocation st' = memLocation st /\ cycle st' = cycle st
  /\ breakFound st' = false
  /\ (outputFile st' = outputFile st
      \/ exists line, outputFile st' = (outputFile st ++ [line])%list).
Proof.
  intros Hbf. unfold decode. rewrite Hbf.
  destruct (slice binaryNumber 0 11) as [b11|] eqn:E11; cbn; [|discriminate].
  destruct (formatIs b11 "R") eqn:HR; cbn.
  - unfold blockR. rewrite E11. cbn.
    destruct (slice binaryNumber 11 16) as [rm|]; cbn; [|discriminate].
    destruct (slice binaryNumber 16 22) as [shamt|]; cbn; [|discriminate].
    destruct (slice binaryNumber 22 27) as [rn|]; cbn; [|discriminate].
    destruct (slice binaryNumber 27 32) as [rd|]; cbn; [|discriminate].
    apply formatIs_R in HR.
    destruct (mnemonicIs b11 "ADD") eqn:E1; [intros [= <-]; cbn; tauto|].
    destruct (mnemonicIs b11 "SUB") eqn:E2; [intros [= <-]; cbn; tauto|].
    destruct (mnemonicIs b11 "AND") eqn:E3; [intros [= <-]; cbn; tauto|].
    destruct (mnemonicIs b11 "ORR") eqn:E4; [intros [= <-]; cbn; tauto|].
    destruct (mnemonicIs b11 "EOR") eqn:E5;
      [intros [= <-]; cbn; repeat split; try assumption; right; eexists; reflexivity|].
    exfalso. intuition discriminate.
  - intros [= <-]. tauto.
Qed.

(** ** The scanning loop *)

Lemma scanLine_malformed line st :
  scanLine line st
  = if malformed line then writeOutput (invalidString (TrimSpace line)) st else st.
Proof. reflexivity. Qed.

Lemma withOutput_same st : withOutput (outputFile st) st = st.
Proof. destruct st; reflexivity. Qed.

(** The loop appends the diagnostics of the malformed lines and touches
    nothing else. *)
Lemma scanLoop_output lines : forall st,
  scanLoop lines st = withOutput (outputFile st ++ diagnostics lines) st.
Proof.
  induction lines as [|line lines IH]; intros st.
  - cbn. rewrite app_nil_r. symmetry. apply withOutput_same.
  - change (scanLoop (line :: lines) st) with (scanLoop lines (scanLine line st)).
    rewrite IH, scanLine_malformed. unfold diagnostics. cbn [List.filter].
    destruct (malformed line); cbn [List.map]; [|reflexivity].
    unfold withOutput, writeOutput. cbn. now rewrite <- app_assoc.
Qed.

Lemma diagnostics_app l1 l2 :
  diagnostics (l1 ++ l2) = (diagnostics l1 ++ diagnostics l2)%list.
Proof. unfold diagnostics. now rewrite List.filter_app, List.map_app. Qed.

(** *** [TrimSpace] is idempotent *)

Lemma TrimLeft_head s :
  TrimLeft s = EmptyString
  \/ exists c t, TrimLeft s = String c t /\ asciiSpace c = false.
Proof.
  induction s as [|c s IH]; [left; reflexivity|].
  cbn [TrimLeft]. destruct (asciiSpace c) eqn:E; [exact IH|].
  right. exists c, s. split; [reflexivity|exact E].
Qed.

Lemma TrimRight_head c s :
  asciiSpace c = false -> exists t, TrimRight (String c s) = String c t.
Proof.
  intros E. cbn [TrimRight]. destruct (TrimRight s) as [|d t].
  - rewrite E. eexists; reflexivity.
  - eexists; reflexivity.
Qed.

Lemma TrimRight_idem s : TrimRight (TrimRight s) = TrimRight s.
Proof.
  induction s as [|c s IH]; [reflexivity|].
  cbn [TrimRight]. destruct (TrimRight s) as [|d t] eqn:E.
  - destruct (asciiSpace c) eqn:Ec; [reflexivity|].
    cbn [TrimRight]. now rewrite Ec.
  - change (TrimRight (String c (String d t)))
      with (match TrimRight (String d t) with
            | EmptyString => if asciiSpace c then EmptyString else String c EmptyString
            | u => String c u
            end).
    now rewrite IH.
Qed.

Lemma TrimSpace_idem s : TrimSpace (TrimSpace s) = TrimSpace s.
Proof.
  unfold TrimSpace. destruct (TrimLeft_head s) as [->|(c & t & -> & Ec)].
  - reflexivity.
  - destruct (TrimRight_head c t Ec) as [u Hu]. rewrite Hu.
    cbn [TrimLeft]. rewrite Ec, <- Hu. apply TrimRight_idem.
Qed.

Lemma malformed_TrimSpace line : malformed (TrimSpace line) = malformed line.
Proof. unfold malformed. now rewrite TrimSpace_idem. Qed.

Lemma diagnostics_TrimSpace lines :
  diagnostics (List.map TrimSpace lines) = diagnostics lines.
Proof.
  unfold diagnostics. induction lines as [|l lines IH]; [reflexivity|].
  cbn [List.map List.filter]. rewrite malformed_TrimSpace.
  destruct (malformed l); cbn [List.map]; now rewrite ?TrimSpace_idem, IH.
Qed.

Lemma last_map_TrimSpace lines :
  List.last (List.map TrimSpace lines) "" = TrimSpace (List.last lines "").
Proof.
  induction lines as [|l lines IH]; [reflexivity|].
  destruct lines as [|l' lines]; [reflexivity|]. exact IH.
Qed.

Lemma last_app_cons (l1 l2 : list string) x y :
  List.last (l1 ++ x :: y :: l2) "" = List.last (l1 ++ y :: l2) "".
Proof.
  induction l1 as [|a l1 IH].
  - reflexivity.
  - cbn [app]. destruct l1 as [|b l1].
    + reflexivity.
    + change (List.last ((b :: l1) ++ x :: y :: l2) ""
              = List.last ((b :: l1) ++ y :: l2) "").
      exact IH.
Qed.

(** *** [TrimSpace] on an instruction within white space *)

Lemma isBit_not_space c : isBit c = true -> asciiSpace c = false.
Proof.
  unfold isBit. intros H. apply orb_true_iff in H.
  destruct H as [H|H]; apply Ascii.eqb_eq in H; subst c; reflexivity.
Qed.

Lemma TrimLeft_space ws t : allSpace ws = true -> TrimLeft (ws ++ t) = TrimLeft t.
Proof.
  induction ws as [|c ws IH]; intros H; [reflexivity|].
  cbn [allSpace] in H. apply andb_true_iff in H. destruct H as [Hc Hws].
  change (String c ws ++ t) with (String c (ws ++ t)).
  cbn [TrimLeft]. rewrite Hc. now apply IH.
Qed.

Lemma TrimRight_space ws : allSpace ws = true -> TrimRight ws = EmptyString.
Proof.
  induction ws as [|c ws IH]; intros H; [reflexivity|].
  cbn [allSpace] in H. apply andb_true_iff in H. destruct H as [Hc Hws].
  cbn [TrimRight]. now rewrite IH, Hc.
Qed.

Lemma TrimRight_bits s ws :
  bits s = true -> allSpace ws = true -> TrimRight (s ++ ws) = s.
Proof.
  intros Hb Hws. induction s as [|c s IH]; [now apply TrimRight_space|].
  cbn [bits] in Hb. apply andb_true_iff in Hb. destruct Hb as [Hc Hs].
  change (String c s ++ ws) with (String c (s ++ ws)).
  cbn [TrimRight]. rewrite (IH Hs).
  destruct s; [now rewrite (isBit_not_space c Hc)|reflexivity].
Qed.

Lemma TrimSpace_bits ws1 s ws2 :
  allSpace ws1 = true -> bits s = true -> allSpace ws2 = true ->
  TrimSpace (ws1 ++ s ++ ws2) = s.
Proof.
  intros H1 Hb H2. unfold TrimSpace. rewrite TrimLeft_space by assumption.
  destruct s as [|c s].
  - change (EmptyString ++ ws2) with ws2.
    assert (Hl : TrimLeft ws2 = EmptyString).
    { clear H1. induction ws2 as [|d ws2 IH]; [reflexivity|].
      cbn [allSpace] in H2. apply andb_true_iff in H2. destruct H2 as [Hd Hws].
      cbn [TrimLeft]. rewrite Hd. now apply IH. }
    now rewrite Hl.
  - assert (Hc : asciiSpace c = false).
    { cbn [bits] in Hb. apply andb_true_iff in Hb. now apply isBit_not_space. }
    change (String c s ++ ws2) with (String c (s ++ ws2)).
    cbn [TrimLeft]. rewrite Hc.
    now apply (TrimRight_bits (String c s) ws2).
Qed.

Lemma main_unfold lines :
  main lines = decode (TrimSpace (List.last lines "")) (withOutput (diagnostics lines) initial).
Proof. unfold main, lastBinaryNumber. now rewrite scanLoop_output. Qed.

Lemma main_TrimSpace lines : main lines = main (List.map TrimSpace lines).
Proof.
  rewrite !main_unfold, last_map_TrimSpace, TrimSpace_idem, diagnostics_TrimSpace.
  reflexivity.
Qed.

Lemma malformed_length line :
  malformed line = true <-> String.length (TrimSpace line) <> 32%nat.
Proof.
  unfold malformed. rewrite negb_true_iff. apply Nat.eqb_neq.
Qed.

(** C10.  The length check of the loop is made on the line with its leading
    and trailing white space removed: a line whose trimmed content has 32
    characters passes the loop without a diagnostic and without any change
    of the state, whatever its raw length, every other line receives the
    diagnostic, and the program treats a raw line as it treats its trimmed
    content; so an instruction of 32 bits within any white space is
    accepted and handled as the instruction alone is. *)
Theorem length_check_on_trimmed_line :
  (forall line st,
      (String.length (TrimSpace line) = 32%nat -> scanLine line st = st)
      /\ (String.length (TrimSpace line) <> 32%nat ->
          scanLine line st = writeOutput (invalidString (TrimSpace line)) st))
  /\ (forall lines st,
      scanLoop lines st = withOutput (outputFile st ++ diagnostics lines) st)
  /\ (forall l1 line l2,
      main (l1 ++ line :: l2) = main (l1 ++ TrimSpace line :: l2))
  /\ (forall ws1 binaryNumber ws2 l1 l2 st,
      allSpace ws1 = true -> allSpace ws2 = true ->
      bits binaryNumber = true -> String.length binaryNumber = 32%nat ->
      scanLine (ws1 ++ binaryNumber ++ ws2) st = st
      /\ main (l1 ++ (ws1 ++ binaryNumber ++ ws2) :: l2) = main (l1 ++ binaryNumber :: l2)).
Proof.
  assert (Hmain : forall l1 line l2,
             main (l1 ++ line :: l2) = main (l1 ++ TrimSpace line :: l2)).
  { intros l1 line l2.
    rewrite (main_TrimSpace (l1 ++ line :: l2)).
    rewrite (main_TrimSpace (l1 ++ TrimSpace line :: l2)).
    rewrite !List.map_app. cbn [List.map]. now rewrite TrimSpace_idem. }
  split; [|split; [|split]].
  - intros line st. rewrite scanLine_malformed. split; intros H.
    + destruct (malformed line) eqn:E; [|reflexivity].
      apply malformed_length in E. contradiction.
    + apply malformed_length in H. now rewrite H.
  - intros lines st. apply scanLoop_output.
  - exact Hmain.
  - intros ws1 bn ws2 l1 l2 st H1 H2 Hb Hlen.
    pose proof (TrimSpace_bits ws1 bn ws2 H1 Hb H2) as Ht. split.
    + rewrite scanLine_malformed. unfold malformed. now rewrite Ht, Hlen.
    + now rewrite Hmain, Ht.
Qed.

Lemma length_check_on_trimmed_line_witness :
  let raw := String "009"%char "  11101010000000010000000000000010  " in
  String.length raw = 37%nat
  /\ scanLine raw initial = initial
  /\ main [raw] = main ["11101010000000010000000000000010"]
  /\ scanLine "1110101000000001000000000000001" initial
     = writeOutput (invalidString "1110101000000001000000000000001") initial.
Proof.
  cbv zeta. split; [reflexivity|].
  destruct length_check_on_trimmed_line as (Hline & _ & _ & Hbits).
  destruct (Hbits (String "009"%char "  ") "11101010000000010000000000000010" "  "
              [] [] initial eq_refl eq_refl eq_refl eq_refl) as [Hscan Hmain].
  split; [exact Hscan|]. split; [exact Hmain|].
  apply (proj2 (Hline "1110101000000001000000000000001" initial)).
  vm_compute. discriminate.
Defined.

(** C9, as the program has it.  The count is that of the trimmed line: a
    line whose content without leading and trailing white space has a length
    other than 32 makes the loop append one diagnostic to the disassembly
    file and change nothing else (no register, no memory cell, no trace, no
    counter), after which the loop goes on with the next line; and when
    lines follow it, the run ends as the run without it does, with that one
    diagnostic inserted at its place in the disassembly file. *)
Theorem malformed_line_isolated (l1 l2 : list string) (bad : string) :
  String.length (TrimSpace bad) <> 32%nat ->
  let d := invalidString (TrimSpace bad) in
  (forall st,
      scanLoop (l1 ++ bad :: l2) st = scanLoop l2 (writeOutput d (scanLoop l1 st)))
  /\ (forall st,
      outputFile (writeOutput d st) = (outputFile st ++ [d])%list
      /\ registers (writeOutput d st) = registers st
      /\ memory (writeOutput d st) = memory st
      /\ simOutputFile (writeOutput d st) = simOutputFile st
      /\ memLocation (writeOutput d st) = memLocation st
      /\ cycle (writeOutput d st) = cycle st
      /\ breakFound (writeOutput d st) = breakFound st)
  /\ (l2 <> [] ->
      let n := List.length (diagnostics l1) in
      match main (l1 ++ l2) with
      | Some r0 =>
          exists r1,
            main (l1 ++ bad :: l2) = Some r1
            /\ registers r1 = registers r0 /\ memory r1 = memory r0
            /\ simOutputFile r1 = simOutputFile r0
            /\ memLocation r1 = memLocation r0 /\ cycle r1 = cycle r0
            /\ breakFound r1 = breakFound r0
            /\ outputFile r1 = (take n (outputFile r0) ++ d :: drop n (outputFile r0))%list
      | None => main (l1 ++ bad :: l2) = None
      end).
Proof.
  intros Hbad d. apply malformed_length in Hbad.
  split; [|split].
  - intros st. unfold scanLoop. rewrite foldl_app. cbn [foldl].
    rewrite scanLine_malformed, Hbad. reflexivity.
  - intros st. cbn. tauto.
  - intros Hl2 n. destruct l2 as [|y l2]; [congruence|].
    rewrite !main_unfold, last_app_cons, !diagnostics_app.
    change (diagnostics (bad :: y :: l2))
      with (List.map (fun line => invalidString (TrimSpace line))
              (List.filter malformed (bad :: y :: l2))).
    cbn [List.filter]. rewrite Hbad. cbn [List.map].
    change (List.map (fun line => invalidString (TrimSpace line))
              (List.filter malformed (y :: l2))) with (diagnostics (y :: l2)).
    fold d.
    rewrite !(decode_output _ initial) by reflexivity.
    destruct (decode (TrimSpace (List.last (l1 ++ y :: l2) "")) initial) as [r|]; cbn;
      [|reflexivity].
    eexists. split; [reflexivity|]. cbn. repeat (split; [reflexivity|]).
    rewrite <- !app_assoc. subst n.
    rewrite take_app_length, drop_app_length. reflexivity.
Qed.

Lemma malformed_line_isolated_witness :
  exists r1,
    main ["1110101000000001000000000000001"; "11101010000000010000000000000010"]
    = Some r1
    /\ outputFile r1
       = [invalidString "1110101000000001000000000000001";
          rFormat "11101010000" "00001" "000000" "00000" "00010" 96 "EOR" 2 0 1].
Proof.
  assert (Hbad : String.length (TrimSpace "1110101000000001000000000000001") <> 32%nat)
    by (vm_compute; discriminate).
  assert (Hrun0 : main ([] ++ ["11101010000000010000000000000010"])
                  = Some (mkMachine {[2 := 0]} ∅
                            [rFormat "11101010000" "00001" "000000" "00000" "00010"
                               96 "EOR" 2 0 1]
                            [] 96 1 false))
    by (vm_compute; reflexivity).
  pose proof (malformed_line_isolated [] ["11101010000000010000000000000010"]
                "1110101000000001000000000000001" Hbad) as H.
  cbv zeta in H. destruct H as (_ & _ & H).
  specialize (H ltac:(discriminate)). rewrite Hrun0 in H.
  destruct H as (r1 & Hrun & _ & _ & _ & _ & _ & _ & Hout).
  exists r1. split; [exact Hrun|]. rewrite Hout. vm_compute. reflexivity.
Defined.

(** The claim C9 counts the raw line: a line of 33 characters, an
    instruction followed by one space, receives no diagnostic. *)
Lemma raw_length_33_without_diagnostic :
  let line := "00000000000000000000000000000000 " in
  String.length line = 33%nat
  /\ outputFile (scanLine line initial) = []
  /\ main [line] = Some initial.
Proof. cbv zeta. repeat split. Qed.

(** ** The I format: the signed immediate *)

Lemma substring_head s : forall a n c,
  index s a = Some c -> substring a (S n) s = String c (substring (S a) n s).
Proof.
  unfold index. induction s as [|d s IH]; intros a n c H.
  - destruct a; discriminate.
  - destruct a as [|a].
    + injection H as ->. cbn [substring]. destruct s, n; reflexivity.
    + cbn [String.get] in H. cbn [substring]. apply IH. exact H.
Qed.

Lemma index_isBit s : forall i c, bits s = true -> index s i = Some c -> isBit c = true.
Proof.
  unfold index. induction s as [|d s IH]; intros i c Hb H.
  - destruct i; discriminate.
  - cbn [bits] in Hb. apply andb_true_iff in Hb. destruct Hb as [Hd Hs].
    destruct i as [|i].
    + injection H as <-. exact Hd.
    + cbn [String.get] in H. eapply IH; eassumption.
Qed.

(** The leading character of a field decides the half in which its
    unsigned value lies. *)
Lemma field_msb bn a n c :
  bits bn = true -> (a + S n <= String.length bn)%nat -> (n <= 61)%nat ->
  index bn a = Some c ->
  let u := ParseInt (substring a (S n) bn) in
  0 <= u < 2 ^ Z.of_nat (S n) /\ (is1 c = true <-> 2 ^ Z.of_nat n <= u).
Proof.
  intros Hb Hlen Hn Hc u. subst u.
  assert (Hbs : bits (substring a (S n) bn) = true) by now apply substring_bits.
  assert (Hl : String.length (substring a (S n) bn) = S n) by now apply substring_length.
  split.
  - pose proof (ParseInt_bits_range _ Hbs) as R. rewrite Hl in R. apply R. lia.
  - rewrite ParseInt_bits; [|assumption|lia].
    rewrite (substring_head bn a n c Hc). cbn [binval].
    pose proof (binval_bounds (substring (S a) n bn) (0 * 2 + (if is1 c then 1 else 0))) as B.
    rewrite substring_length in B by lia.
    destruct (is1 c); split; intros H; try reflexivity; try discriminate; lia.
Qed.

(** X22.  In the I-format block of [main] (lines 337-361), a block that a
    run of [main] does not reach, the 12-bit immediate of a line of
    32 bits is the unsigned value of the field, less [2^12] when the leading
    bit of the field is 1: a number from -2048 to 2047 that agrees with the
    field modulo [2^12].  ADDI leaves [rn] plus that number in [rd], SUBI
    leaves [rn] minus that number. *)
Theorem blockI_signed_immediate (binaryNumber : string) (st : Machine) (c : ascii) :
  String.length binaryNumber = 32%nat ->
  bits binaryNumber = true ->
  index binaryNumber 10 = Some c ->
  let u := ParseInt (substring 10 12 binaryNumber) in
  let imm := if is1 c then u - 2 ^ 12 else u in
  let r1 := ParseInt (substring 22 5 binaryNumber) in
  let r3 := ParseInt (substring 27 5 binaryNumber) in
  0 <= u < 2 ^ 12
  /\ (is1 c = true <-> 2 ^ 11 <= u)
  /\ - 2 ^ 11 <= imm < 2 ^ 11
  /\ imm mod 2 ^ 12 = u
  /\ (mnemonicIs (substring 0 10 binaryNumber) "ADDI" = true ->
      exists st',
        blockI binaryNumber st = Some st'
        /\ registers st' = <[r3 := wrap64 (readMap (registers st) r1 + imm)]> (registers st)
        /\ memory st' = memory st)
  /\ (mnemonicIs (substring 0 10 binaryNumber) "SUBI" = true ->
      exists st',
        blockI binaryNumber st = Some st'
        /\ registers st' = <[r3 := wrap64 (readMap (registers st) r1 - imm)]> (registers st)
        /\ memory st' = memory st).
Proof.
  intros Hlen Hb Hc u imm r1 r3.
  destruct (field_msb binaryNumber 10 11 c Hb ltac:(lia) ltac:(lia) Hc) as [Hu Hmsb].
  fold u in Hu, Hmsb. change (Z.of_nat 12) with 12 in Hu. change (Z.of_nat 11) with 11 in Hmsb.
  assert (Himm : - 2 ^ 11 <= imm < 2 ^ 11).
  { subst imm. destruct (is1 c).
    - assert (2 ^ 11 <= u) by now apply Hmsb. lia.
    - assert (~ 2 ^ 11 <= u) by (intros H; apply Hmsb in H; discriminate). lia. }
  assert (Hsub : subLead1 c 12 u = imm).
  { unfold subLead1. subst imm. destruct (is1 c); [|reflexivity]. apply wrap64_id. lia. }
  split; [exact Hu|]. split; [exact Hmsb|]. split; [exact Himm|]. split.
  { subst imm. destruct (is1 c).
    - replace (u - 2 ^ 12) with (u + (-1) * 2 ^ 12) by lia.
      rewrite Z.mod_add by lia. apply Z.mod_small. lia.
    - apply Z.mod_small. lia. }
  split; intros Hop.
  - unfold blockI. slices Hlen. rewrite Hc. cbn [mbind option_bind].
    fold u r1 r3. rewrite Hsub. unfold chainI. rewrite Hop. cbn [mbind option_bind].
    unfold traceAndAdvance. slices Hlen.
    eexists. split; [reflexivity|]. split; reflexivity.
  - unfold blockI. slices Hlen. rewrite Hc. cbn [mbind option_bind].
    fold u r1 r3. rewrite Hsub. unfold chainI.
    rewrite (mnemonicIs_excl _ "SUBI" "ADDI" Hop) by discriminate. rewrite Hop.
    cbn [mbind option_bind].
    unfold traceAndAdvance. slices Hlen.
    eexists. split; [reflexivity|]. split; reflexivity.
Qed.

Lemma blockI_signed_immediate_witness :
  (exists st',
      blockI "10010001001000000000000000000001" initial = Some st'
      /\ registers st' = {[1 := -2048]})
  /\ (exists st',
      blockI "10010001000111111111110000000001" initial = Some st'
      /\ registers st' = {[1 := 2047]})
  /\ (exists st',
      blockI "11010001001000000000000000000001" initial = Some st'
      /\ registers st' = {[1 := 2048]}).
Proof.
  split; [|split].
  - destruct (blockI_signed_immediate "10010001001000000000000000000001" initial "1")
      as (_ & _ & _ & _ & H & _); try reflexivity.
    destruct (H eq_refl) as (st' & Hrun & Hreg & _).
    exists st'. split; [exact Hrun|exact Hreg].
  - destruct (blockI_signed_immediate "10010001000111111111110000000001" initial "0")
      as (_ & _ & _ & _ & H & _); try reflexivity.
    destruct (H eq_refl) as (st' & Hrun & Hreg & _).
    exists st'. split; [exact Hrun|exact Hreg].
  - destruct (blockI_signed_immediate "11010001001000000000000000000001" initial "1")
      as (_ & _ & _ & _ & _ & H); try reflexivity.
    destruct (H eq_refl) as (st' & Hrun & Hreg & _).
    exists st'. split; [exact Hrun|exact Hreg].
Defined.

(** ** The IM format: MOVZ and MOVK *)

Lemma testbit_shl64 x sh i :
  0 <= sh < 64 -> 0 <= i < 64 ->
  Z.testbit (shl64 x sh) i = Z.testbit x (i - sh).
Proof.
  intros Hsh Hi. unfold shl64.
  destruct (64 <=? sh) eqn:E; [apply Z.leb_le in E; lia|].
  rewrite testbit_wrap64 by lia. apply Z.shiftl_spec. lia.
Qed.

Lemma testbit_small v w j :
  0 <= v < 2 ^ w -> w <= j -> Z.testbit v j = false.
Proof.
  intros Hv Hj. assert (0 <= w).
  { destruct (Z.lt_ge_cases w 0) as [Hw|Hw]; [|exact Hw].
    rewrite Z.pow_neg_r in Hv by lia. lia. }
  rewrite <- (Z.mod_small v (2 ^ w)) by lia.
  apply Z.mod_pow2_bits_high. lia.
Qed.

Lemma testbit_65535 j : Z.testbit 65535 j = (0 <=? j) && (j <? 16).
Proof. change 65535 with (Z.ones 16). apply Z.testbit_ones. lia. Qed.

(** The window of 16 bits at position [sh]. *)
Lemma movk_bits old field sh i :
  0 <= field < 2 ^ 16 -> 0 <= sh < 64 -> 0 <= i < 64 ->
  Z.testbit (Z.lor (Z.ldiff old (shl64 65535 sh)) (shl64 field sh)) i
  = if (sh <=? i) && (i <? sh + 16) then Z.testbit field (i - sh) else Z.testbit old i.
Proof.
  intros Hf Hsh Hi.
  rewrite Z.lor_spec, Z.ldiff_spec, !testbit_shl64, testbit_65535 by lia.
  destruct (sh <=? i) eqn:E1; [apply Z.leb_le in E1|apply Z.leb_gt in E1].
  - destruct (i <? sh + 16) eqn:E2; [apply Z.ltb_lt in E2|apply Z.ltb_ge in E2].
    + replace (0 <=? i - sh) with true by (symmetry; apply Z.leb_le; lia).
      replace (i - sh <? 16) with true by (symmetry; apply Z.ltb_lt; lia).
      cbn. now rewrite andb_false_r.
    + replace (i - sh <? 16) with false by (symmetry; apply Z.ltb_ge; lia).
      rewrite (testbit_small field 16 (i - sh)) by lia.
      cbn. now rewrite andb_false_r, andb_true_r, orb_false_r.
  - replace (0 <=? i - sh) with false by (symmetry; apply Z.leb_gt; lia).
    rewrite (Z.testbit_neg_r field (i - sh)) by lia.
    cbn. now rewrite andb_true_r, orb_false_r.
Qed.

Lemma movz_bits field sh i :
  0 <= field < 2 ^ 16 -> 0 <= sh < 64 -> 0 <= i < 64 ->
  Z.testbit (shl64 field sh) i
  = if (sh <=? i) && (i <? sh + 16) then Z.testbit field (i - sh) else false.
Proof.
  intros Hf Hsh Hi. rewrite testbit_shl64 by lia.
  destruct (sh <=? i) eqn:E1; [apply Z.leb_le in E1|apply Z.leb_gt in E1].
  - destruct (i <? sh + 16) eqn:E2; [reflexivity|apply Z.ltb_ge in E2].
    cbn. apply (testbit_small field 16); lia.
  - cbn. apply Z.testbit_neg_r. lia.
Qed.

(** X21.  In the IM-format block of [main] (lines 409-430), a block that a
    run of [main] does not reach, on a line of 32 bits, MOVK
    changes in register [rd] the 16 bits at position [shift code * 16] and
    no other: outside that window the exclusive or of the old and the new
    value has no bit set, inside it the new value carries the 16-bit field.
    MOVZ leaves in [rd] the field shifted left by [shift code * 16], every
    bit outside the window being zero.  No other register and no memory
    cell changes. *)
Theorem blockIM_window (binaryNumber : string) (st : Machine) :
  String.length binaryNumber = 32%nat ->
  bits binaryNumber = true ->
  let opcode := substring 0 9 binaryNumber in
  let sh := ParseInt (substring 9 2 binaryNumber) * 16 in
  let field := ParseInt (substring 11 16 binaryNumber) in
  let im_rd := ParseInt (substring 27 5 binaryNumber) in
  let old := readMap (registers st) im_rd in
  0 <= field < 2 ^ 16
  /\ (sh = 0 \/ sh = 16 \/ sh = 32 \/ sh = 48)
  /\ (mnemonicIs opcode "MOVK" = true ->
      exists st' new,
        blockIM binaryNumber st = Some st'
        /\ registers st' = <[im_rd := new]> (registers st)
        /\ memory st' = memory st
        /\ (forall i, 0 <= i < 64 -> ~ (sh <= i < sh + 16) ->
            Z.testbit (Z.lxor old new) i = false)
        /\ (forall j, 0 <= j < 16 -> Z.testbit new (sh + j) = Z.testbit field j))
  /\ (mnemonicIs opcode "MOVZ" = true ->
      exists st' new,
        blockIM binaryNumber st = Some st'
        /\ registers st' = <[im_rd := new]> (registers st)
        /\ memory st' = memory st
        /\ new = wrap64 (Z.shiftl field sh)
        /\ (forall i, 0 <= i < 64 -> ~ (sh <= i < sh + 16) -> Z.testbit new i = false)
        /\ (forall j, 0 <= j < 16 -> Z.testbit new (sh + j) = Z.testbit field j)).
Proof.
  intros Hlen Hb opcode sh field im_rd old.
  assert (Hf : 0 <= field < 2 ^ 16).
  { pose proof (ParseInt_bits_range (substring 11 16 binaryNumber)) as R.
    rewrite substring_length in R by (rewrite Hlen; lia).
    apply R; [now apply substring_bits|lia]. }
  assert (Hs : 0 <= ParseInt (substring 9 2 binaryNumber) < 2 ^ 2).
  { pose proof (ParseInt_bits_range (substring 9 2 binaryNumber)) as R.
    rewrite substring_length in R by (rewrite Hlen; lia).
    apply R; [now apply substring_bits|lia]. }
  assert (Hsh : sh = 0 \/ sh = 16 \/ sh = 32 \/ sh = 48) by (subst sh; lia).
  assert (Hw : wrap64 sh = sh) by (apply wrap64_id; lia).
  assert (Hneg : (sh <? 0) = false) by (apply Z.ltb_ge; lia).
  split; [exact Hf|]. split; [exact Hsh|]. split; intros Hop.
  - eexists. exists (Z.lor (Z.ldiff old (shl64 65535 sh)) (shl64 field sh)).
    split.
    { unfold blockIM. slices Hlen. fold opcode field im_rd sh. rewrite Hw.
      rewrite (mnemonicIs_excl _ "MOVK" "MOVZ" Hop) by discriminate.
      rewrite Hop, Hneg. reflexivity. }
    split; [reflexivity|]. split; [reflexivity|]. split.
    + intros i Hi Hout. rewrite Z.lxor_spec, movk_bits by lia.
      replace ((sh <=? i) && (i <? sh + 16)) with false; [apply xorb_nilpotent|].
      symmetry. apply andb_false_iff.
      destruct (Z.lt_ge_cases i sh); [left; apply Z.leb_gt; lia|right; apply Z.ltb_ge; lia].
    + intros j Hj. rewrite movk_bits by lia.
      replace (sh <=? sh + j) with true by (symmetry; apply Z.leb_le; lia).
      replace (sh + j <? sh + 16) with true by (symmetry; apply Z.ltb_lt; lia).
      cbn. f_equal. lia.
  - eexists. exists (shl64 field sh).
    split.
    { unfold blockIM. slices Hlen. fold opcode field im_rd sh. rewrite Hw.
      rewrite Hop, Hneg. reflexivity. }
    split; [reflexivity|]. split; [reflexivity|]. split; [|split].
    + unfold shl64. destruct (64 <=? sh) eqn:E; [apply Z.leb_le in E; lia|reflexivity].
    + intros i Hi Hout. rewrite movz_bits by lia.
      destruct ((sh <=? i) && (i <? sh + 16)) eqn:E; [|reflexivity].
      apply andb_true_iff in E. destruct E as [E1 E2].
      apply Z.leb_le in E1. apply Z.ltb_lt in E2. lia.
    + intros j Hj. rewrite movz_bits by lia.
      replace (sh <=? sh + j) with true by (symmetry; apply Z.leb_le; lia).
      replace (sh + j <? sh + 16) with true by (symmetry; apply Z.ltb_lt; lia).
      cbn. f_equal. lia.
Qed.

Lemma blockIM_window_witness :
  exists st' new,
    blockIM "11110010101000100100011010000001" (setRegister 1 (-1) initial) = Some st'
    /\ registers st' = <[1 := new]> {[1 := -1]}
    /\ (forall i, 0 <= i < 64 -> ~ (16 <= i < 16 + 16) ->
        Z.testbit (Z.lxor (-1) new) i = false).
Proof.
  destruct (blockIM_window "11110010101000100100011010000001"
              (setRegister 1 (-1) initial) eq_refl eq_refl)
    as (_ & _ & H & _).
  destruct (H eq_refl) as (st' & new & Hrun & Hreg & _ & Hout & _).
  exists st', new. split; [exact Hrun|]. split; [exact Hreg|exact Hout].
Defined.

(** ** What a run of [main] can do *)

(** Whatever the input, a run that ends has written no memory cell and no
    trace, has left the instruction address at 96, the cycle at 1 and
    [breakFound] false, and its disassembly file holds the diagnostics of
    the malformed lines followed by at most one line. *)
Lemma main_reach lines st :
  main lines = Some st ->
  memory st = ∅ /\ simOutputFile st = [] /\ memLocation st = 96 /\ cycle st = 1
  /\ breakFound st = false
  /\ (outputFile st = diagnostics lines
      \/ exists line, outputFile st = (diagnostics lines ++ [line])%list).
Proof.
  rewrite main_unfold. intros H.
  apply decode_reach in H; [|reflexivity]. exact H.
Qed.

(** C1.  [main] does not stop at BREAK.  A file that holds the BREAK
    instruction alone runs to the end without a line in the disassembly
    file and with [breakFound] still false; when an EOR instruction follows
    the BREAK line, that instruction is decoded, writes register 2 and is
    listed. *)
Theorem break_then_instruction_executes :
  main ["11111110110111101111111111100111"] = Some initial
  /\ main ["11111110110111101111111111100111"; "11101010000000010000000000000010"]
     = Some (mkMachine {[2 := 0]} ∅
               [rFormat "11101010000" "00001" "000000" "00000" "00010" 96 "EOR" 2 0 1]
               [] 96 1 false).
Proof. split; vm_compute; reflexivity. Qed.

(** C2.  A well-formed line gets no line in the disassembly file: a file
    that holds one ADD instruction, or the three instructions NOP, ADDI and
    BREAK, leaves the file empty. *)
Theorem well_formed_lines_without_listing :
  main ["10001011000000010000000000000010"]
  = Some (mkMachine {[2 := 0]} ∅ [] [] 96 1 false)
  /\ main ["00000000000000000000000000000000";
           "10010001000000000000010000000001";
           "11111110110111101111111111100111"]
     = Some initial.
Proof. split; vm_compute; reflexivity. Qed.

(** The chain after the loop also runs on a malformed last line: a line of
    33 characters that starts as an EOR instruction receives its diagnostic
    in the loop and is then decoded, executed and listed; a file without a
    line, or with a short last line, ends in a slice out of range. *)
Example malformed_last_line_is_decoded :
  main ["111010100000000100000000000000100"]
  = Some (mkMachine {[2 := 0]} ∅
            [invalidString "111010100000000100000000000000100";
             rFormat "11101010000" "00001" "000000" "00000" "00010" 96 "EOR" 2 0 1]
            [] 96 1 false)
  /\ main [] = None
  /\ main ["1110101"] = None.
Proof. repeat split; vm_compute; reflexivity. Qed.

(** ** The branches *)

(** [simulate] reads the offset of a branch as written: a field of bits is
    an unsigned number, and register 15 moves by four times that number. *)
Lemma simulate_B_unsigned field registers memory :
  bits field = true -> (String.length field <= 60)%nat ->
  0 <= binval field 0 < 2 ^ 60
  /\ simulate "B" [field] registers memory
     = Some (<[15 := wrap64 (readMap registers 15 + 4 * binval field 0)]> registers,
             memory, false).
Proof.
  intros Hb Hlen.
  pose proof (binval_bounds field 0) as B.
  assert (2 ^ Z.of_nat (String.length field) <= 2 ^ 60) by (apply Z.pow_le_mono_r; lia).
  split; [lia|].
  unfold simulate. cbn. rewrite ParseInt_bits by (assumption || lia).
  rewrite (wrap64_id (binval field 0 * 4)) by lia.
  now rewrite (Z.mul_comm (binval field 0) 4).
Qed.

(** The B and CB blocks of [main], followed by the end of the I block as
    the braces have it, advance the instruction address by 4 and leave the
    registers and the memory as they are; the offset goes to the cycle. *)
Lemma blockB_address binaryNumber st st' :
  blockB binaryNumber st ≫= traceAndAdvance binaryNumber = Some st' ->
  memLocation st' = wrap64 (memLocation st + 4)
  /\ registers st' = registers st /\ memory st' = memory st.
Proof.
  unfold blockB, traceAndAdvance.
  destruct (slice binaryNumber 0 6); cbn; [|discriminate].
  destruct (slice binaryNumber 6 32); cbn; [|discriminate].
  destruct (index binaryNumber 6); cbn; [|discriminate].
  destruct (slice binaryNumber 0 11); cbn; [|discriminate].
  destruct (mnemonicIs _ "B"); intros [= <-]; cbn; tauto.
Qed.

Lemma blockCB_address binaryNumber st st' :
  blockCB binaryNumber st ≫= traceAndAdvance binaryNumber = Some st' ->
  memLocation st' = wrap64 (memLocation st + 4)
  /\ registers st' = registers st /\ memory st' = memory st.
Proof.
  unfold blockCB, traceAndAdvance.
  destruct (slice binaryNumber 0 8); cbn; [|discriminate].
  destruct (slice binaryNumber 8 27); cbn; [|discriminate].
  destruct (slice binaryNumber 27 32); cbn; [|discriminate].
  destruct (index binaryNumber 8); cbn; [|discriminate].
  destruct (slice binaryNumber 0 11); cbn; [|discriminate].
  destruct (mnemonicIs _ "CBNZ" && _); [intros [= <-]; cbn; tauto|].
  destruct (mnemonicIs _ "CBZ" && _); intros [= <-]; cbn; tauto.
Qed.

(** ** Loads and stores *)

(** No key of the opcode table has the mnemonic "LDR" or "STR". *)
Lemma mnemonicIs_LDR_STR opcode :
  mnemonicIs opcode "LDR" = false /\ mnemonicIs opcode "STR" = false.
Proof.
  unfold mnemonicIs, opcodeIdentifier.
  destruct (opcodeTable !! opcode) as [m|] eqn:E; cbn; [|split; reflexivity].
  apply elem_of_list_to_map_2 in E.
  repeat (apply elem_of_cons in E; destruct E as [E|E];
          [injection E as _ ->; split; reflexivity|]).
  apply elem_of_nil in E. destruct E.
Qed.

(** The D block of [main] changes no register and no memory cell. *)
Lemma blockD_frame binaryNumber st st' :
  blockD binaryNumber st = Some st' ->
  registers st' = registers st /\ memory st' = memory st.
Proof.
  unfold blockD.
  destruct (slice binaryNumber 0 11) as [opcode|]; cbn; [|discriminate].
  destruct (slice binaryNumber 11 20); cbn; [|discriminate].
  destruct (slice binaryNumber 20 22); cbn; [|discriminate].
  destruct (slice binaryNumber 22 27); cbn; [|discriminate].
  destruct (slice binaryNumber 27 32); cbn; [|discriminate].
  destruct (mnemonicIs_LDR_STR opcode) as [-> ->].
  intros [= <-]. cbn. tauto.
Qed.

(** The D case of [simulate] is a store, whatever the instruction. *)
Lemma simulate_D_stores rn offset rt registers memory :
  simulate "D" [rn; offset; rt] registers memory
  = Some (registers,
          <[wrap64 (readMap registers (getRegisterNumber rn) + ParseInt offset)
            := readMap registers (getRegisterNumber rt)]> memory,
          false).
Proof. reflexivity. Qed.

(** C4.  The branch of [simulate] scales the offset by 4 but reads the
    26-bit field as an unsigned number: the field of 26 ones (-1) moves
    register 15 forward by [4 * (2^26 - 1)].  The B block of [main] extends
    the sign but adds the offset, unscaled, to the cycle counter: for the
    offset field 10 the instruction address goes from 96 to 100 and the
    cycle from 1 to 4.  A run of [main] on that line changes nothing. *)
Theorem branch_offset_evaluated :
  simulate "B" ["11111111111111111111111111"] {[15 := 96]} ∅
  = Some ({[15 := 96 + 4 * (2 ^ 26 - 1)]}, ∅, false)
  /\ (blockB "00010100000000000000000000000010" initial
        ≫= traceAndAdvance "00010100000000000000000000000010")
     = Some (mkMachine ∅ ∅
               [bFormat "000101" "00000000000000000000000010" 96 "B" 2]
               [SimText (simOutput 3 96 ""); SimState 3 96 "" ∅ ∅]
               100 4 false)
  /\ main ["00010100000000000000000000000010"] = Some initial.
Proof. repeat split; vm_compute; reflexivity. Qed.

(** C5.  The conditional branch of [simulate] reads the 19-bit field as an
    unsigned number: CBZ on a zero register with the field of 19 ones (-1)
    moves register 15 forward by [4 * (2^19 - 1)]; a branch not taken
    leaves register 15 as it is.  The CB block of [main] adds the offset,
    unscaled, to the cycle counter and the instruction address advances by
    4 whether the branch is taken or not.  A run of [main] on a CBZ line
    changes nothing. *)
Theorem conditional_branch_evaluated :
  simulate "CB" ["00000"; "1111111111111111111"; "0"] {[15 := 96]} ∅
  = Some ({[15 := 96 + 4 * (2 ^ 19 - 1)]}, ∅, false)
  /\ simulate "CB" ["00000"; "0000000000000000010"; "1"] {[15 := 96]} ∅
     = Some ({[15 := 96]}, ∅, false)
  /\ (blockCB "10110100000000000000000001000000" initial
        ≫= traceAndAdvance "10110100000000000000000001000000")
     = Some (mkMachine ∅ ∅
               [cbFormat "10110100" "0000000000000000010" "00000" 96 "CBZ" 0 2]
               [SimText (simOutput 3 96 ""); SimState 3 96 "" ∅ ∅]
               100 4 false)
  /\ main ["10110100000000000000000001000000"] = Some initial.
Proof. repeat split; vm_compute; reflexivity. Qed.

(** C6.  The D block of [main] compares the mnemonic with "LDR" and "STR",
    which the opcode table does not hold: LDUR loads nothing and STUR stores
    nothing.  The D case of [simulate] stores whatever the mnemonic: given
    the fields of LDUR R1, [R0, #0], it overwrites memory cell 0 with
    register 1.  A run of [main] on the LDUR line changes nothing. *)
Theorem load_store_evaluated :
  blockD "11111000010000000000000000000001"
    (mkMachine ∅ {[0 := 7]} [] [] 96 1 false)
  = Some (mkMachine ∅ {[0 := 7]}
            [dFormat "11111000010" "000000000" "00" "00000" "00001" 96 "LDUR" 1 0 0]
            [] 96 1 false)
  /\ blockD "11111000000000000000000000000001"
       (mkMachine {[1 := 9]} ∅ [] [] 96 1 false)
     = Some (mkMachine {[1 := 9]} ∅
               [dFormat "11111000000" "000000000" "00" "00000" "00001" 96 "STUR" 1 0 0]
               [] 96 1 false)
  /\ simulate "D" ["00000"; "000000000"; "00001"] ∅ {[0 := 7]}
     = Some (∅, {[0 := 0]}, false)
  /\ main ["11111000010000000000000000000001"] = Some initial.
Proof. repeat split; vm_compute; reflexivity. Qed.

(** * Further properties of the program *)

(** ** [getRegisterNumber] and [getShiftAmount] *)

Lemma binval_inj s : forall t a b,
  bits s = true -> bits t = true -> String.length s = String.length t ->
  binval s a = binval t b -> a = b /\ s = t.
Proof.
  induction s as [|c s IH]; intros t a b Hs Ht Hlen H.
  - destruct t; [|discriminate]. split; [exact H|reflexivity].
  - destruct t as [|d t]; [discriminate|].
    cbn [bits] in Hs, Ht. apply andb_true_iff in Hs. apply andb_true_iff in Ht.
    destruct Hs as [Hc Hs]. destruct Ht as [Hd Ht].
    cbn [binval] in H. injection Hlen as Hlen.
    destruct (IH t _ _ Hs Ht Hlen H) as [Hab ->].
    assert (c = d /\ a = b) as [-> ->]; [|split; reflexivity].
    unfold isBit, is1 in *. apply orb_true_iff in Hc. apply orb_true_iff in Hd.
    destruct Hc as [Hc|Hc]; apply Ascii.eqb_eq in Hc; subst c;
      destruct Hd as [Hd|Hd]; apply Ascii.eqb_eq in Hd; subst d;
      cbn in Hab; split; try reflexivity; lia.
Qed.

(** X1.  On a field of bits (of at most 62 characters) [getRegisterNumber]
    returns the unsigned number that the field denotes, below two to the
    length of the field, so a 5-bit field gives a register from 0 to 31; and
    two fields of bits of the same length that give the same number are the
    same field. *)
Theorem getRegisterNumber_field (registerBits other : string) :
  bits registerBits = true -> (String.length registerBits <= 62)%nat ->
  getRegisterNumber registerBits = binval registerBits 0
  /\ 0 <= getRegisterNumber registerBits < 2 ^ Z.of_nat (String.length registerBits)
  /\ (String.length registerBits = 5%nat -> 0 <= getRegisterNumber registerBits <= 31)
  /\ (bits other = true -> String.length other = String.length registerBits ->
      getRegisterNumber other = getRegisterNumber registerBits -> other = registerBits).
Proof.
  intros Hb Hlen. unfold getRegisterNumber.
  pose proof (ParseInt_bits_range registerBits Hb Hlen) as R.
  split; [now apply ParseInt_bits|]. split; [exact R|]. split.
  - intros H5. rewrite H5 in R. change (2 ^ Z.of_nat 5) with 32 in R. lia.
  - intros Ho Hl Heq.
    rewrite (ParseInt_bits other), (ParseInt_bits registerBits) in Heq
      by (assumption || lia).
    now destruct (binval_inj other registerBits 0 0 Ho Hb Hl Heq).
Qed.

Lemma getRegisterNumber_field_witness :
  getRegisterNumber "11111" = 31 /\ 0 <= getRegisterNumber "11111" <= 31.
Proof.
  destruct (getRegisterNumber_field "11111" "11111" eq_refl ltac:(cbn; lia))
    as (H1 & _ & H3 & _).
  split; [exact H1|exact (H3 eq_refl)].
Defined.

Lemma digitVal_not_bit c :
  isBit c = false -> digitVal c = None \/ exists d, digitVal c = Some d /\ 2 <= d.
Proof.
  destruct c as [[] [] [] [] [] [] [] []]; vm_compute; intros H;
    try discriminate H; try (left; reflexivity);
    right; eexists; (split; [reflexivity|]); intros E; discriminate E.
Qed.

Lemma parseUintLoop_syntax s : forall n,
  bits s = false -> 0 <= n ->
  (n + 1) * 2 ^ Z.of_nat (String.length s) <= 2 ^ 64 ->
  parseUintLoop s n = NumSyntax.
Proof.
  induction s as [|c s IH]; intros n Hb Hn Hlen; [discriminate|].
  cbn [String.length] in Hlen. rewrite Nat2Z.inj_succ, Z.pow_succ_r in Hlen by lia.
  assert (Hp : 0 < 2 ^ Z.of_nat (String.length s)) by (apply Z.pow_pos_nonneg; lia).
  cbn [parseUintLoop]. cbn [bits] in Hb.
  destruct (isBit c) eqn:Hc.
  - cbn [andb] in Hb. rewrite (isBit_digitVal c Hc).
    set (d := if is1 c then 1 else 0).
    assert (Hd : 0 <= d <= 1) by (subst d; destruct (is1 c); lia).
    destruct (2 <=? d) eqn:E1; [reflexivity|].
    destruct (2 ^ 63 <=? n) eqn:E2; [apply Z.leb_le in E2; nia|].
    destruct (2 ^ 64 - 1 <? n * 2 + d) eqn:E3; [apply Z.ltb_lt in E3; nia|].
    apply IH; [assumption|lia|nia].
  - destruct (digitVal_not_bit c Hc) as [->|(d & -> & Hd)]; [reflexivity|].
    destruct (2 <=? d) eqn:E; [reflexivity|apply Z.leb_gt in E; lia].
Qed.

(** X2.  [getRegisterNumber] drops the error of [ParseInt]: the empty
    field, and every field of at most 64 characters without a leading sign
    that holds a character other than ['0'] and ['1'], gives register 0. *)
Theorem getRegisterNumber_malformed_field (registerBits : string) :
  (String.length registerBits <= 64)%nat ->
  bits registerBits = false ->
  index registerBits 0 <> Some "+"%char ->
  index registerBits 0 <> Some "-"%char ->
  getRegisterNumber registerBits = 0 /\ getRegisterNumber "" = 0.
Proof.
  intros Hlen Hb Hp Hm. split; [|reflexivity].
  destruct registerBits as [|c s]; [reflexivity|].
  unfold getRegisterNumber, ParseInt.
  assert (Ascii.eqb c "+" = false) as ->
    by (apply Ascii.eqb_neq; intros ->; now apply Hp).
  assert (Ascii.eqb c "-" = false) as ->
    by (apply Ascii.eqb_neq; intros ->; now apply Hm).
  cbn [orb]. unfold ParseUint.
  rewrite parseUintLoop_syntax; [reflexivity|assumption|lia|].
  assert (2 ^ Z.of_nat (String.length (String c s)) <= 2 ^ 64)
    by (apply Z.pow_le_mono_r; lia).
  lia.
Qed.

Lemma getRegisterNumber_malformed_field_witness :
  getRegisterNumber "1x011" = 0 /\ getRegisterNumber "" = 0.
Proof.
  apply (getRegisterNumber_malformed_field "1x011");
    [cbn; lia|reflexivity|discriminate|discriminate].
Defined.

(** X3.  [getShiftAmount] returns a multiple of 16 in the range of [uint],
    whatever its argument; on the 2-bit shift code of an IM instruction it
    returns 0, 16, 32 or 48, sixteen times the number that the code
    denotes. *)
Theorem getShiftAmount_multiple_of_16 (shiftBits : string) :
  0 <= getShiftAmount shiftBits < 2 ^ 64
  /\ getShiftAmount shiftBits mod 16 = 0
  /\ (bits shiftBits = true -> String.length shiftBits = 2%nat ->
      getShiftAmount shiftBits = 16 * binval shiftBits 0
      /\ (getShiftAmount shiftBits = 0 \/ getShiftAmount shiftBits = 16
          \/ getShiftAmount shiftBits = 32 \/ getShiftAmount shiftBits = 48)).
Proof.
  unfold getShiftAmount. split; [apply Z.mod_pos_bound; lia|]. split.
  - change (2 ^ 64) with (16 * 2 ^ 60).
    rewrite Z.mul_comm, Z.mul_mod_distr_l by lia.
    rewrite Z.mul_comm. apply Z.mod_mul. lia.
  - intros Hb Hlen.
    pose proof (ParseInt_bits_range shiftBits Hb ltac:(lia)) as R.
    rewrite Hlen in R. change (2 ^ Z.of_nat 2) with 4 in R.
    rewrite <- (ParseInt_bits shiftBits) by (assumption || lia).
    rewrite (Z.mod_small (ParseInt shiftBits)) by lia.
    rewrite Z.mod_small by lia. lia.
Qed.

Lemma getShiftAmount_multiple_of_16_witness :
  getShiftAmount "10" = 16 * binval "10" 0.
Proof.
  destruct (getShiftAmount_multiple_of_16 "10") as (_ & _ & H).
  exact (proj1 (H eq_refl eq_refl)).
Defined.

(** ** [simulate]: the cases that the claims leave out *)

Lemma shl64_mul x n : 0 <= n < 64 -> shl64 x n = wrap64 (x * 2 ^ n).
Proof.
  intros Hn. unfold shl64.
  destruct (64 <=? n) eqn:E; [apply Z.leb_le in E; lia|].
  now rewrite Z.shiftl_mul_pow2 by lia.
Qed.

(** X4.  The IM case of [simulate] is MOVZ: on a 16-bit immediate and a
    2-bit shift code it overwrites [rd] with the immediate shifted left by
    sixteen times the code, whatever [rd] held before; outside that window
    of 16 bits every bit of the new value is zero, and no other register
    and no memory cell changes. *)
Theorem simulate_IM_overwrites (immediate shiftCode rd : string)
    (registers memory : gmap Z Z) :
  bits immediate = true -> String.length immediate = 16%nat ->
  bits shiftCode = true -> String.length shiftCode = 2%nat ->
  let sh := 16 * binval shiftCode 0 in
  let new := wrap64 (binval immediate 0 * 2 ^ sh) in
  simulate "IM" [immediate; shiftCode; rd] registers memory
  = Some (<[getRegisterNumber rd := new]> registers, memory, false)
  /\ (forall i, 0 <= i < 64 -> ~ (sh <= i < sh + 16) -> Z.testbit new i = false)
  /\ (forall j, 0 <= j < 16 ->
      Z.testbit new (sh + j) = Z.testbit (binval immediate 0) j).
Proof.
  intros Hbi Hli Hbs Hls sh new.
  destruct (getShiftAmount_multiple_of_16 shiftCode) as (_ & _ & H).
  destruct (H Hbs Hls) as [Hsh Hcases]. fold sh in Hsh. rewrite Hsh in Hcases.
  pose proof (ParseInt_bits_range immediate Hbi ltac:(lia)) as R.
  rewrite Hli in R. change (Z.of_nat 16) with 16 in R.
  rewrite (ParseInt_bits immediate) in R by (assumption || lia).
  assert (Hnew : new = shl64 (binval immediate 0) sh)
    by (subst new; symmetry; apply shl64_mul; lia).
  split; [|split].
  - unfold simulate. cbn. rewrite Hsh, (ParseInt_bits immediate) by (assumption || lia).
    now rewrite <- Hnew.
  - intros i Hi Hout. rewrite Hnew, movz_bits by lia.
    destruct ((sh <=? i) && (i <? sh + 16)) eqn:E; [|reflexivity].
    apply andb_true_iff in E. destruct E as [E1 E2].
    apply Z.leb_le in E1. apply Z.ltb_lt in E2. lia.
  - intros j Hj. rewrite Hnew, movz_bits by lia.
    replace (sh <=? sh + j) with true by (symmetry; apply Z.leb_le; lia).
    replace (sh + j <? sh + 16) with true by (symmetry; apply Z.ltb_lt; lia).
    cbn. f_equal. lia.
Qed.

Lemma simulate_IM_overwrites_witness :
  simulate "IM" ["0001001000110100"; "01"; "00011"] {[3 := -1]} ∅
  = Some (<[getRegisterNumber "00011" := wrap64 (binval "0001001000110100" 0
                                                  * 2 ^ (16 * binval "01" 0))]>
            {[3 := -1]}, ∅, false).
Proof.
  exact (proj1 (simulate_IM_overwrites "0001001000110100" "01" "00011" {[3 := -1]} ∅
                  eq_refl eq_refl eq_refl eq_refl)).
Defined.

Lemma shr64_sign x n : 0 <= n -> (shr64 x n < 0 <-> x < 0).
Proof.
  intros Hn. unfold shr64. destruct (64 <=? n).
  - destruct (x <? 0) eqn:E; [apply Z.ltb_lt in E|apply Z.ltb_ge in E]; lia.
  - rewrite Z.shiftr_div_pow2 by lia.
    assert (0 < 2 ^ n) by (apply Z.pow_pos_nonneg; lia).
    split; intros H0.
    + destruct (Z.lt_ge_cases x 0) as [|Hx]; [assumption|].
      pose proof (Z.div_pos x (2 ^ n) Hx ltac:(lia)). lia.
    + apply Z.div_lt_upper_bound; lia.
Qed.

(** X5.  In the SHIFT case of [simulate] the discriminators of LSR ("0010")
    and of ASR ("1010") do the same thing: both shift [rn] right
    arithmetically, so the result has the sign of [rn] (a logical shift of a
    negative number by one or more would be positive).  A negative shift
    count makes LSR, LSL and ASR panic; an unknown discriminator changes
    nothing, whatever the count. *)
Theorem simulate_SHIFT_is_arithmetic (shamt rn rd : string)
    (registers memory : gmap Z Z) :
  simulate "SHIFT" [shamt; rn; rd; "0010"] registers memory
  = simulate "SHIFT" [shamt; rn; rd; "1010"] registers memory
  /\ (0 <= ParseInt shamt ->
      exists v,
        simulate "SHIFT" [shamt; rn; rd; "0010"] registers memory
        = Some (<[getRegisterNumber rd := v]> registers, memory, false)
        /\ (v < 0 <-> readMap registers (getRegisterNumber rn) < 0)
        /\ (ParseInt shamt < 64 ->
            v = readMap registers (getRegisterNumber rn) / 2 ^ ParseInt shamt))
  /\ (ParseInt shamt < 0 ->
      simulate "SHIFT" [shamt; rn; rd; "0010"] registers memory = None
      /\ simulate "SHIFT" [shamt; rn; rd; "0011"] registers memory = None
      /\ simulate "SHIFT" [shamt; rn; rd; "1010"] registers memory = None)
  /\ (forall disc, disc <> "0010" -> disc <> "0011" -> disc <> "1010" ->
      simulate "SHIFT" [shamt; rn; rd; disc] registers memory
      = Some (registers, memory, false)).
Proof.
  split; [reflexivity|]. split; [|split].
  - intros Hn. exists (shr64 (readMap registers (getRegisterNumber rn)) (ParseInt shamt)).
    split; [|split].
    + unfold simulate. cbn.
      destruct (ParseInt shamt <? 0) eqn:E; [apply Z.ltb_lt in E; lia|reflexivity].
    + now apply shr64_sign.
    + intros H64. unfold shr64.
      destruct (64 <=? ParseInt shamt) eqn:E; [apply Z.leb_le in E; lia|].
      apply Z.shiftr_div_pow2. lia.
  - intros Hn. apply Z.ltb_lt in Hn. unfold simulate. cbn. rewrite Hn. repeat split.
  - intros disc H1 H2 H3. unfold simulate. cbn.
    apply String.eqb_neq in H1, H2, H3. now rewrite H1, H2, H3.
Qed.

Lemma simulate_SHIFT_is_arithmetic_witness :
  (exists v,
      simulate "SHIFT" ["000001"; "00001"; "00010"; "0010"] {[1 := -8]} ∅
      = Some (<[getRegisterNumber "00010" := v]> {[1 := -8]}, ∅, false)
      /\ v < 0)
  /\ simulate "SHIFT" ["-1"; "00001"; "00010"; "0011"] {[1 := -8]} ∅ = None.
Proof.
  destruct (simulate_SHIFT_is_arithmetic "000001" "00001" "00010" {[1 := -8]} ∅)
    as (_ & H & _).
  destruct (H ltac:(vm_compute; discriminate)) as (v & Hrun & Hsign & _).
  split.
  - exists v. split; [exact Hrun|]. apply Hsign. vm_compute. reflexivity.
  - destruct (simulate_SHIFT_is_arithmetic "-1" "00001" "00010" {[1 := -8]} ∅)
      as (_ & _ & Hneg & _).
    exact (proj1 (proj2 (Hneg ltac:(vm_compute; reflexivity)))).
Defined.

(** The case analysis that [simulate] makes on the instruction type and on
    its arguments. *)
Ltac simulate_cases ty args H :=
  unfold simulate in H;
  repeat match type of H with
         | context [String.eqb ty ?k] =>
             let E := fresh "Ety" in
             destruct (String.eqb ty k) eqn:E;
             [apply String.eqb_eq in E|apply String.eqb_neq in E]
         end;
  repeat match type of H with
         | context [args !! ?i] => destruct (args !! i) eqn:?; cbn in H
         end;
  repeat match type of H with
         | context [if ?b then _ else _] => destruct b eqn:?
         end.

(** X6.  [simulate] returns the halt flag [true] for the instruction type
    "BREAK" and for no other, and the BREAK instruction changes neither the
    registers nor the memory; an instruction type that [simulate] does not
    know changes nothing either. *)
Theorem simulate_halts_on_BREAK_only (instructionType : string) (args : list string)
    (registers memory registers' memory' : gmap Z Z) (halt : bool) :
  simulate instructionType args registers memory = Some (registers', memory', halt) ->
  (halt = true <-> instructionType = "BREAK")
  /\ (instructionType = "BREAK" -> registers' = registers /\ memory' = memory)
  /\ (instructionType ∉ ["B"; "CB"; "R"; "IM"; "SHIFT"; "D"; "I"] ->
      registers' = registers /\ memory' = memory).
Proof.
  intros H. split; [|split].
  - simulate_cases instructionType args H; try discriminate H;
      injection H as <- <- <-; subst; split; intros E;
      try reflexivity; try discriminate E; congruence.
  - intros ->. injection H as <- <- _. split; reflexivity.
  - intros Hty.
    simulate_cases instructionType args H; try discriminate H;
      try (injection H as <- <- _; split; reflexivity);
      exfalso; apply Hty; subst; set_solver.
Qed.

Lemma simulate_halts_on_BREAK_only_witness :
  (true = true <-> "BREAK" = "BREAK")
  /\ ("BREAK" = "BREAK" -> ({[1 := 5]} : gmap Z Z) = {[1 := 5]} /\ (∅ : gmap Z Z) = ∅).
Proof.
  destruct (simulate_halts_on_BREAK_only "BREAK" [] {[1 := 5]} ∅ {[1 := 5]} ∅ true eq_refl)
    as (H1 & H2 & _).
  split; [exact H1|exact H2].
Defined.

(** X7.  One call of [simulate] changes at most one cell: only the D case
    writes memory, and it writes one cell and no register; every other case
    leaves the memory as it is and writes at most one register, which for
    the two branches is register 15. *)
Theorem simulate_writes_one_cell (instructionType : string) (args : list string)
    (registers memory registers' memory' : gmap Z Z) (halt : bool) :
  simulate instructionType args registers memory = Some (registers', memory', halt) ->
  (instructionType <> "D" ->
   memory' = memory
   /\ (registers' = registers \/ exists k v, registers' = <[k := v]> registers))
  /\ (instructionType = "D" ->
      registers' = registers /\ exists k v, memory' = <[k := v]> memory)
  /\ (instructionType = "B" \/ instructionType = "CB" ->
      forall k, k <> 15 -> registers' !! k = registers !! k).
Proof.
  intros H. split; [|split].
  - intros Hty.
    simulate_cases instructionType args H; try discriminate H; try congruence;
      injection H as <- <- _; (split; [reflexivity|]);
      first [left; reflexivity | right; eexists; eexists; reflexivity].
  - intros ->. simulate_cases "D" args H; try discriminate H; try congruence.
    injection H as <- <- _. split; [reflexivity|]. eexists; eexists; reflexivity.
  - intros Hty k Hk.
    destruct Hty as [-> | ->]; simulate_cases "B" args H;
      simulate_cases "CB" args H; try discriminate H; try congruence;
      injection H as <- _ _; try reflexivity; now apply lookup_insert_ne.
Qed.

Lemma simulate_writes_one_cell_witness :
  ({[0 := 9]} : gmap Z Z) = {[0 := 9]}
  /\ exists k v, ({[14 := 9]} : gmap Z Z) = <[k := v]> (∅ : gmap Z Z).
Proof.
  assert (Hrun : simulate "D" ["00000"; "000000101"; "00000"] {[0 := 9]} ∅
                 = Some ({[0 := 9]}, {[14 := 9]}, false))
    by (vm_compute; reflexivity).
  destruct (simulate_writes_one_cell _ _ _ _ _ _ _ Hrun) as (_ & H & _).
  exact (H eq_refl).
Defined.

(** X8.  The test [len(args) != 4] of the R case stops nothing: with fewer
    than four arguments the R case panics on an index out of range, and with
    four or more it runs on the first four and ignores the rest.  With four
    arguments or more the only panic of [simulate] is the negative shift
    count of the SHIFT case. *)
Theorem simulate_argument_count (args : list string) (registers memory : gmap Z Z) :
  (simulate "R" args registers memory = None <-> (List.length args < 4)%nat)
  /\ (forall a0 a1 a2 a3 rest,
      simulate "R" (a0 :: a1 :: a2 :: a3 :: rest) registers memory
      = simulate "R" [a0; a1; a2; a3] registers memory)
  /\ (forall instructionType,
      (4 <= List.length args)%nat ->
      simulate instructionType args registers memory = None ->
      instructionType = "SHIFT"
      /\ exists a0, args !! 0%nat = Some a0 /\ ParseInt a0 < 0).
Proof.
  split; [|split].
  - destruct args as [|a0 [|a1 [|a2 [|a3 rest]]]]; cbn [List.length];
      (split; [intros H|intros H; try lia]); try lia; try reflexivity.
    exfalso. revert H. unfold simulate. cbn.
    repeat match goal with
           | |- context [if ?b then _ else _] => destruct b
           end; discriminate.
  - reflexivity.
  - intros ty Hlen H.
    destruct args as [|a0 [|a1 [|a2 [|a3 rest]]]]; cbn [List.length] in Hlen; try lia.
    unfold simulate in H. cbn in H.
    repeat match type of H with
           | context [String.eqb ty ?k] =>
               let E := fresh "Ety" in
               destruct (String.eqb ty k) eqn:E;
               [apply String.eqb_eq in E|apply String.eqb_neq in E]
           end;
      repeat match type of H with
             | context [if ?b then _ else _] => destruct b eqn:?
             end; try discriminate H.
    all: split; [assumption|]; exists a0; split; [reflexivity|];
      now apply Z.ltb_lt.
Qed.

Lemma simulate_argument_count_witness :
  "SHIFT" = "SHIFT"
  /\ exists a0, ["-1"; "00001"; "00010"; "0010"] !! 0%nat = Some a0 /\ ParseInt a0 < 0.
Proof.
  apply (proj2 (proj2 (simulate_argument_count ["-1"; "00001"; "00010"; "0010"]
                         {[1 := 4]} ∅)) "SHIFT").
  - cbn. lia.
  - vm_compute. reflexivity.
Defined.

(** ** The two tables *)

Lemma prefix_substring s : forall n, String.prefix (substring 0 n s) s = true.
Proof.
  induction s as [|c s IH]; intros n.
  - destruct n; reflexivity.
  - destruct n as [|n]; [reflexivity|].
    cbn [substring String.prefix]. destruct (ascii_dec c c); [apply IH|congruence].
Qed.

Lemma prefix_common s : forall a b,
  String.prefix a s = true -> String.prefix b s = true ->
  String.prefix a b = true \/ String.prefix b a = true.
Proof.
  induction s as [|c s IH]; intros a b Ha Hb.
  - destruct a; [left; destruct b; reflexivity|discriminate].
  - destruct a as [|x a]; [left; destruct b; reflexivity|].
    destruct b as [|y b]; [right; reflexivity|].
    cbn [String.prefix] in *.
    destruct (ascii_dec x c) as [->|]; [|discriminate].
    destruct (ascii_dec y c) as [->|]; [|discriminate].
    destruct (ascii_dec c c); [|congruence]. now apply IH.
Qed.

Lemma opcodeTable_keys_prefix k1 k2 m1 m2 :
  opcodeTable !! k1 = Some m1 -> opcodeTable !! k2 = Some m2 ->
  String.prefix k1 k2 = true ->
  k1 = k2 \/ (m1 = " " /\ m2 = "NOP").
Proof.
  intros E1 E2 Hp.
  apply elem_of_list_to_map_2 in E1. apply elem_of_list_to_map_2 in E2.
  repeat (apply elem_of_cons in E1; destruct E1 as [E1|E1];
          [injection E1 as -> ->|]);
    try (apply elem_of_nil in E1; destruct E1);
    repeat (apply elem_of_cons in E2; destruct E2 as [E2|E2];
            [injection E2 as -> ->; vm_compute in Hp;
             first [discriminate Hp | left; reflexivity | right; split; reflexivity]|]);
    apply elem_of_nil in E2; destruct E2.
Qed.

(** X9.  Apart from the key of six zeros, which starts the NOP pattern, no
    key of the opcode table starts another: when two prefixes of different
    lengths of one line are both found in the table, the shorter is the key
    "000000", with the blank mnemonic, and the longer is NOP.  So for
    every other line the order in which the chain tries the prefix lengths
    does not change which mnemonic is found. *)
Theorem opcodeTable_prefix_free (binaryNumber : string) (a b : nat) :
  (a < b <= String.length binaryNumber)%nat ->
  opcodeIdentifier (substring 0 a binaryNumber) <> "" ->
  opcodeIdentifier (substring 0 b binaryNumber) <> "" ->
  opcodeIdentifier (substring 0 a binaryNumber) = " "
  /\ opcodeIdentifier (substring 0 b binaryNumber) = "NOP".
Proof.
  intros Hab Ha Hb. unfold opcodeIdentifier in *.
  destruct (opcodeTable !! substring 0 a binaryNumber) as [m1|] eqn:E1;
    [|now contradiction Ha].
  destruct (opcodeTable !! substring 0 b binaryNumber) as [m2|] eqn:E2;
    [|now contradiction Hb].
  cbn.
  assert (Hne : substring 0 a binaryNumber <> substring 0 b binaryNumber).
  { intros Heq. apply (f_equal String.length) in Heq.
    rewrite !substring_length in Heq by lia. lia. }
  destruct (prefix_common binaryNumber _ _ (prefix_substring binaryNumber a)
              (prefix_substring binaryNumber b)) as [Hp|Hp].
  - destruct (opcodeTable_keys_prefix _ _ _ _ E1 E2 Hp) as [Heq|[-> ->]];
      [contradiction|split; reflexivity].
  - destruct (opcodeTable_keys_prefix _ _ _ _ E2 E1 Hp) as [Heq|[-> ->]];
      [now contradiction Hne|].
    (* the longer prefix would be the six zeros and the shorter NOP *)
    apply elem_of_list_to_map_2 in E1.
    assert (Hl : String.length (substring 0 a binaryNumber) = 32%nat).
    { repeat (apply elem_of_cons in E1; destruct E1 as [E1|E1];
              [pose proof (f_equal fst E1) as Hk; pose proof (f_equal snd E1) as Hm;
               cbn in Hk, Hm; first [discriminate Hm | now rewrite Hk]|]).
      apply elem_of_nil in E1. destruct E1. }
    apply elem_of_list_to_map_2 in E2.
    assert (Hl2 : String.length (substring 0 b binaryNumber) = 6%nat).
    { repeat (apply elem_of_cons in E2; destruct E2 as [E2|E2];
              [pose proof (f_equal fst E2) as Hk; pose proof (f_equal snd E2) as Hm;
               cbn in Hk, Hm; first [discriminate Hm | now rewrite Hk]|]).
      apply elem_of_nil in E2. destruct E2. }
    rewrite substring_length in Hl, Hl2 by lia. lia.
Qed.

Lemma opcodeTable_prefix_free_witness :
  opcodeIdentifier (substring 0 6 "00000000000000000000000000000000") = " "
  /\ opcodeIdentifier (substring 0 32 "00000000000000000000000000000000") = "NOP".
Proof.
  apply (opcodeTable_prefix_free "00000000000000000000000000000000" 6 32).
  - cbn. lia.
  - vm_compute. discriminate.
  - vm_compute. discriminate.
Defined.

(** X10.  The two tables fit: every mnemonic of the opcode table other than
    the blank one has a format in the format table, that format is one of
    the nine cases of the switch of [simulate], and every mnemonic of the
    format table is the mnemonic of some opcode.  The blank mnemonic of the
    key "000000" has no format. *)
Theorem tables_consistent :
  (forall k m, opcodeTable !! k = Some m -> m <> " " ->
     instructionIdentifier m
     ∈ ["B"; "CB"; "R"; "IM"; "SHIFT"; "D"; "I"; " "; "BREAK"])
  /\ (forall m f, instructionTable !! m = Some f ->
      exists k, opcodeTable !! k = Some m)
  /\ instructionIdentifier (opcodeIdentifier "000000") = "".
Proof.
  split; [|split].
  - intros k m E Hm. apply elem_of_list_to_map_2 in E.
    repeat (apply elem_of_cons in E; destruct E as [E|E];
            [injection E as -> ->; first [now contradiction Hm
                                        | vm_compute; set_solver]|]).
    apply elem_of_nil in E. destruct E.
  - intros m f E. apply elem_of_list_to_map_2 in E.
    assert (Hk : m ∈ (snd <$> [ ("000101", "B");
      ("10001010000", "AND"); ("10001011000", "ADD"); ("1001000100", "ADDI");
      ("10101010000", "ORR"); ("10110100", "CBZ"); ("10110101", "CBNZ");
      ("11001011000", "SUB"); ("1101000100", "SUBI"); ("110100101", "MOVZ");
      ("111100101", "MOVK"); ("11010011010", "LSR"); ("11010011011", "LSL");
      ("11111000000", "STUR"); ("11111000010", "LDUR"); ("11010011100", "ASR");
      ("00000000000000000000000000000000", "NOP"); ("11101010000", "EOR");
      ("11111110110111101111111111100111", "BREAK") ])).
    { repeat (apply elem_of_cons in E; destruct E as [E|E];
              [injection E as -> _; cbn; set_solver|]).
      apply elem_of_nil in E. destruct E. }
    apply list_elem_of_fmap in Hk. destruct Hk as ([k m'] & -> & Hin).
    exists k. cbn.
    repeat (apply elem_of_cons in Hin; destruct Hin as [Hin|Hin];
            [injection Hin as -> ->; vm_compute; reflexivity|]).
    apply elem_of_nil in Hin. destruct Hin.
  - vm_compute. reflexivity.
Qed.

Lemma tables_consistent_witness :
  instructionIdentifier "MOVK"
  ∈ ["B"; "CB"; "R"; "IM"; "SHIFT"; "D"; "I"; " "; "BREAK"].
Proof.
  apply (proj1 tables_consistent "111100101" "MOVK").
  - vm_compute. reflexivity.
  - discriminate.
Defined.

(** ** The blocks of [main] that the claims leave out *)

Lemma substring_all s : forall n, (String.length s <= n)%nat -> substring 0 n s = s.
Proof.
  induction s as [|c s IH]; intros n H.
  - destruct n; reflexivity.
  - destruct n as [|n]; [cbn in H; lia|].
    cbn [substring]. f_equal. apply IH. cbn [String.length] in H. lia.
Qed.

(** X11.  Once [breakFound] is set, the chain lists a line of 32 bits as a
    datum and executes nothing: it appends one line, which shows the value
    of the 32 bits read as a two's-complement number (from [-2^31] to
    [2^31 - 1], equal to the unsigned value modulo [2^32]), and it leaves the
    registers, the memory, the instruction address and the cycle as they
    are. *)
Theorem decode_after_break_lists_data (binaryNumber : string) (st : Machine) :
  breakFound st = true ->
  bits binaryNumber = true ->
  String.length binaryNumber = 32%nat ->
  exists decimalVal,
    decode binaryNumber st
    = Some (writeOutput (afterBreakLine binaryNumber (memLocation st) decimalVal) st)
    /\ - 2 ^ 31 <= decimalVal < 2 ^ 31
    /\ decimalVal mod 2 ^ 32 = binval binaryNumber 0.
Proof.
  intros Hbf Hb Hlen.
  destruct (index_ok binaryNumber 0 ltac:(lia)) as [c Hc].
  destruct (field_msb binaryNumber 0 31 c Hb ltac:(lia) ltac:(lia) Hc) as [Hu Hmsb].
  rewrite (substring_all binaryNumber 32) in Hu, Hmsb by lia.
  change (Z.of_nat 32) with 32 in Hu. change (Z.of_nat 31) with 31 in Hmsb.
  assert (Hv : ParseInt binaryNumber = binval binaryNumber 0)
    by (apply ParseInt_bits; [assumption|lia]).
  exists (if is1 c then ParseInt binaryNumber - 2 ^ 32 else ParseInt binaryNumber).
  split; [|split].
  - unfold decode, blockAfterBreak. rewrite Hbf, Hc. cbn [mbind option_bind].
    unfold subLead1. destruct (is1 c); [|reflexivity].
    assert (2 ^ 31 <= ParseInt binaryNumber) by now apply Hmsb.
    rewrite wrap64_id by lia. reflexivity.
  - destruct (is1 c).
    + assert (2 ^ 31 <= ParseInt binaryNumber) by now apply Hmsb. lia.
    + assert (~ 2 ^ 31 <= ParseInt binaryNumber)
        by (intros H; apply Hmsb in H; discriminate). lia.
  - rewrite <- Hv. destruct (is1 c).
    + replace (ParseInt binaryNumber - 2 ^ 32)
        with (ParseInt binaryNumber + (-1) * 2 ^ 32) by lia.
      rewrite Z.mod_add by lia. apply Z.mod_small. lia.
    + apply Z.mod_small. lia.
Qed.

Lemma decode_after_break_lists_data_witness :
  exists decimalVal,
    decode "11111111111111111111111111111110" (setBreakFound true initial)
    = Some (writeOutput
              (afterBreakLine "11111111111111111111111111111110" 96 decimalVal)
              (setBreakFound true initial))
    /\ - 2 ^ 31 <= decimalVal < 2 ^ 31.
Proof.
  destruct (decode_after_break_lists_data "11111111111111111111111111111110"
              (setBreakFound true initial) eq_refl eq_refl eq_refl)
    as (v & Hrun & Hrange & _).
  exists v. split; [exact Hrun|exact Hrange].
Defined.

Lemma shr32_div y n :
  - 2 ^ 31 <= y < 2 ^ 31 -> 0 <= n -> shr32 y n = y / 2 ^ n.
Proof.
  intros Hy Hn. unfold shr32. destruct (32 <=? n) eqn:E.
  - apply Z.leb_le in E.
    assert (2 ^ 32 <= 2 ^ n) by (apply Z.pow_le_mono_r; lia).
    destruct (y <? 0) eqn:Ey; [apply Z.ltb_lt in Ey|apply Z.ltb_ge in Ey].
    + apply (Z.div_unique y (2 ^ n) (-1) (y + 2 ^ n)); [left; lia|lia].
    + symmetry. apply Z.div_small. lia.
  - apply Z.shiftr_div_pow2. lia.
Qed.

Lemma wrap32_range z : - 2 ^ 31 <= wrap32 z < 2 ^ 31.
Proof. unfold wrap32. pose proof (Z.mod_pos_bound (z + 2 ^ 31) (2 ^ 32)). lia. Qed.

(** X12.  The SHIFT block of [main] never panics on a line of 32 bits: the
    6-bit shift amount is between 0 and 63.  It writes register [rd] and one
    line, and nothing else.  LSL leaves [rn] times [2^shamt] (wrapped to 64
    bits); LSR leaves [rn] divided by [2^shamt] rounded down, an arithmetic
    shift that keeps the sign; ASR first cuts [rn] to its low 32 bits, read
    as a signed number, and shifts that. *)
Theorem blockSHIFT_on_bits (binaryNumber : string) (st : Machine) :
  String.length binaryNumber = 32%nat ->
  bits binaryNumber = true ->
  let opcode := substring 0 11 binaryNumber in
  let sh := ParseInt (substring 16 6 binaryNumber) in
  let r1 := ParseInt (substring 22 5 binaryNumber) in
  let r3 := ParseInt (substring 27 5 binaryNumber) in
  let x := readMap (registers st) r1 in
  0 <= sh < 64
  /\ exists st' line,
      blockSHIFT binaryNumber st = Some st'
      /\ outputFile st' = (outputFile st ++ [line])%list
      /\ memory st' = memory st /\ simOutputFile st' = simOutputFile st
      /\ memLocation st' = memLocation st /\ cycle st' = cycle st
      /\ (forall k, k <> r3 -> registers st' !! k = registers st !! k)
      /\ (mnemonicIs opcode "LSL" = true ->
          registers st' !! r3 = Some (wrap64 (x * 2 ^ sh)))
      /\ (mnemonicIs opcode "LSR" = true ->
          registers st' !! r3 = Some (x / 2 ^ sh))
      /\ (mnemonicIs opcode "ASR" = true ->
          registers st' !! r3 = Some (wrap32 x / 2 ^ sh)).
Proof.
  intros Hlen Hb opcode sh r1 r3 x.
  assert (Hs : 0 <= sh < 2 ^ 6).
  { pose proof (ParseInt_bits_range (substring 16 6 binaryNumber)) as R.
    rewrite substring_length in R by (rewrite Hlen; lia).
    apply R; [now apply substring_bits|lia]. }
  change (2 ^ 6) with 64 in Hs. split; [exact Hs|].
  assert (Hneg : (sh <? 0) = false) by (apply Z.ltb_ge; lia).
  unfold blockSHIFT. slices Hlen. fold opcode sh r1 r3 x. rewrite Hneg.
  destruct (mnemonicIs opcode "LSL") eqn:E1.
  { rewrite (mnemonicIs_excl _ "LSL" "LSR" E1), (mnemonicIs_excl _ "LSL" "ASR" E1)
      by discriminate.
    eexists; eexists. split; [reflexivity|]. cbn.
    repeat (split; [reflexivity|]). split; [|split; [|split]]; try discriminate.
    - intros k Hk. now apply lookup_insert_ne.
    - intros _. rewrite lookup_insert_eq. f_equal. apply shl64_mul. lia. }
  destruct (mnemonicIs opcode "LSR") eqn:E2.
  { rewrite (mnemonicIs_excl _ "LSR" "ASR" E2) by discriminate.
    eexists; eexists. split; [reflexivity|]. cbn.
    repeat (split; [reflexivity|]). split; [|split; [|split]]; try discriminate.
    - intros k Hk. now apply lookup_insert_ne.
    - intros _. rewrite lookup_insert_eq. f_equal. unfold shr64.
      destruct (64 <=? sh) eqn:E; [apply Z.leb_le in E; lia|].
      apply Z.shiftr_div_pow2. lia. }
  destruct (mnemonicIs opcode "ASR") eqn:E3.
  { eexists; eexists. split; [reflexivity|]. cbn.
    repeat (split; [reflexivity|]). split; [|split; [|split]]; try discriminate.
    - intros k Hk. now apply lookup_insert_ne.
    - intros _. rewrite lookup_insert_eq. f_equal.
      apply shr32_div; [apply wrap32_range|lia]. }
  eexists; eexists. split; [reflexivity|]. cbn.
  repeat split; intros; try discriminate; reflexivity.
Qed.

Lemma blockSHIFT_on_bits_witness :
  exists st' line,
    blockSHIFT "11010011100000000000100000100010" (setRegister 1 (2 ^ 32 - 8) initial)
    = Some st'
    /\ outputFile st' = [line]
    /\ registers st' !! ParseInt (substring 27 5 "11010011100000000000100000100010")
       = Some (wrap32 (readMap (registers (setRegister 1 (2 ^ 32 - 8) initial))
                         (ParseInt (substring 22 5 "11010011100000000000100000100010")))
               / 2 ^ ParseInt (substring 16 6 "11010011100000000000100000100010")).
Proof.
  destruct (blockSHIFT_on_bits "11010011100000000000100000100010"
              (setRegister 1 (2 ^ 32 - 8) initial) eq_refl eq_refl)
    as (_ & st' & line & Hrun & Hout & _ & _ & _ & _ & _ & _ & _ & Hasr).
  exists st', line. split; [exact Hrun|]. split; [exact Hout|].
  apply Hasr. vm_compute. reflexivity.
Defined.

(** ** Runs of [main] *)

Lemma slice_None s a b :
  slice s a b = None <-> ~ (a <= b <= String.length s)%nat.
Proof.
  unfold slice.
  destruct (a <=? b)%nat eqn:E1; [apply Nat.leb_le in E1|apply Nat.leb_gt in E1];
    (destruct (b <=? String.length s)%nat eqn:E2;
     [apply Nat.leb_le in E2|apply Nat.leb_gt in E2]);
    cbn; split; intros H; try discriminate; try reflexivity; lia.
Qed.

Lemma readMap_insert_zero (k j : Z) : readMap (<[k := 0]> (∅ : gmap Z Z)) j = 0.
Proof.
  unfold readMap. rewrite lookup_insert. destruct (decide (k = j)); reflexivity.
Qed.

(** X13.  Whatever the input file, every register reads zero at the end of
    a run of [main]: the one instruction that the chain can execute works on
    a register file of zeros, and each of its five operations maps two
    zeros to zero. *)
Theorem main_registers_read_zero (lines : list string) (st : Machine) :
  main lines = Some st -> forall k, readMap (registers st) k = 0.
Proof.
  rewrite main_unfold. unfold decode. cbn [breakFound withOutput initial].
  destruct (slice _ 0 11) as [b11|] eqn:E11; cbn; [|discriminate].
  destruct (formatIs b11 "R") eqn:HR; cbn; [|now intros [= <-] k].
  unfold blockR. rewrite E11. cbn.
  destruct (slice _ 11 16); cbn; [|discriminate].
  destruct (slice _ 16 22); cbn; [|discriminate].
  destruct (slice _ 22 27); cbn; [|discriminate].
  destruct (slice _ 27 32); cbn; [|discriminate].
  apply formatIs_R in HR.
  destruct (mnemonicIs b11 "ADD"); [intros [= <-] k; apply readMap_insert_zero|].
  destruct (mnemonicIs b11 "SUB"); [intros [= <-] k; apply readMap_insert_zero|].
  destruct (mnemonicIs b11 "AND"); [intros [= <-] k; apply readMap_insert_zero|].
  destruct (mnemonicIs b11 "ORR"); [intros [= <-] k; apply readMap_insert_zero|].
  destruct (mnemonicIs b11 "EOR"); [intros [= <-] k; apply readMap_insert_zero|].
  exfalso. intuition discriminate.
Qed.

Lemma main_registers_read_zero_witness :
  readMap (registers (mkMachine {[2 := 0]} ∅ [] [] 96 1 false)) 2 = 0
  /\ readMap (registers (mkMachine {[2 := 0]} ∅ [] [] 96 1 false)) 7 = 0.
Proof.
  assert (Hrun : main ["10001011000000010000000000000010"]
                 = Some (mkMachine {[2 := 0]} ∅ [] [] 96 1 false))
    by (vm_compute; reflexivity).
  split; apply (main_registers_read_zero _ _ Hrun).
Defined.

(** X14.  A run of [main] ends in a panic exactly when the last line of the
    file, trimmed, has fewer than 11 characters (so also when the file is
    empty), or has fewer than 32 and starts with the opcode of an R-format
    instruction.  Every other file runs to the end. *)
Theorem main_panics_iff (lines : list string) :
  let binaryNumber := lastBinaryNumber lines in
  main lines = None
  <-> (String.length binaryNumber < 11)%nat
      \/ ((String.length binaryNumber < 32)%nat
          /\ formatIs (substring 0 11 binaryNumber) "R" = true).
Proof.
  cbv zeta. rewrite main_unfold. fold (lastBinaryNumber lines).
  set (bn := lastBinaryNumber lines).
  unfold decode. cbn [breakFound withOutput initial].
  destruct (Nat.lt_ge_cases (String.length bn) 11) as [Hlt|Hge].
  - assert (slice bn 0 11 = None) as -> by (apply slice_None; lia).
    cbn. split; [left; assumption|reflexivity].
  - rewrite (slice_ok bn 0 11) by lia. cbn [mbind option_bind Nat.sub].
    destruct (formatIs (substring 0 11 bn) "R") eqn:HR.
    + unfold blockR. rewrite (slice_ok bn 0 11) by lia. cbn [mbind option_bind Nat.sub].
      destruct (Nat.lt_ge_cases (String.length bn) 32) as [H32|H32].
      * assert (slice bn 27 32 = None) as E by (apply slice_None; lia).
        destruct (slice bn 11 16); cbn; [|split; [right; split; [assumption|reflexivity]|reflexivity]].
        destruct (slice bn 16 22); cbn; [|split; [right; split; [assumption|reflexivity]|reflexivity]].
        destruct (slice bn 22 27); cbn; [|split; [right; split; [assumption|reflexivity]|reflexivity]].
        rewrite E. cbn. split; [right; split; [assumption|reflexivity]|reflexivity].
      * rewrite !slice_ok by lia. cbn [mbind option_bind Nat.sub].
        apply formatIs_R in HR.
        destruct (mnemonicIs _ "ADD"); [split; [discriminate|lia]|].
        destruct (mnemonicIs _ "SUB"); [split; [discriminate|lia]|].
        destruct (mnemonicIs _ "AND"); [split; [discriminate|lia]|].
        destruct (mnemonicIs _ "ORR"); [split; [discriminate|lia]|].
        destruct (mnemonicIs _ "EOR"); [split; [discriminate|lia]|].
        exfalso. intuition discriminate.
    + split; [discriminate|]. intros [H|[_ H]]; [lia|discriminate].
Qed.

(** X15.  Of the five R-format instructions that the chain executes, EOR is
    the only one that is listed: on a line of 32 characters with an R-format
    opcode the chain writes register [rd], and the disassembly file grows,
    by one line, exactly when the mnemonic is EOR. *)
Theorem R_block_lists_EOR_only (binaryNumber : string) (st : Machine) :
  String.length binaryNumber = 32%nat ->
  breakFound st = false ->
  formatIs (substring 0 11 binaryNumber) "R" = true ->
  exists st' v,
    decode binaryNumber st = Some st'
    /\ registers st' = <[ParseInt (substring 27 5 binaryNumber) := v]> (registers st)
    /\ (mnemonicIs (substring 0 11 binaryNumber) "EOR" = true ->
        exists line, outputFile st' = (outputFile st ++ [line])%list)
    /\ (mnemonicIs (substring 0 11 binaryNumber) "EOR" = false ->
        outputFile st' = outputFile st).
Proof.
  intros Hlen Hbf HR. unfold decode. rewrite Hbf. slices Hlen. rewrite HR.
  unfold blockR. slices Hlen. apply formatIs_R in HR.
  destruct (mnemonicIs _ "ADD") eqn:E1.
  { rewrite (mnemonicIs_excl _ "ADD" "EOR" E1) by discriminate.
    eexists; eexists. split; [reflexivity|]. split; [reflexivity|].
    split; [discriminate|reflexivity]. }
  destruct (mnemonicIs _ "SUB") eqn:E2.
  { rewrite (mnemonicIs_excl _ "SUB" "EOR" E2) by discriminate.
    eexists; eexists. split; [reflexivity|]. split; [reflexivity|].
    split; [discriminate|reflexivity]. }
  destruct (mnemonicIs _ "AND") eqn:E3.
  { rewrite (mnemonicIs_excl _ "AND" "EOR" E3) by discriminate.
    eexists; eexists. split; [reflexivity|]. split; [reflexivity|].
    split; [discriminate|reflexivity]. }
  destruct (mnemonicIs _ "ORR") eqn:E4.
  { rewrite (mnemonicIs_excl _ "ORR" "EOR" E4) by discriminate.
    eexists; eexists. split; [reflexivity|]. split; [reflexivity|].
    split; [discriminate|reflexivity]. }
  destruct (mnemonicIs _ "EOR") eqn:E5.
  { eexists; eexists. split; [reflexivity|]. split; [reflexivity|].
    split; [intros _; eexists; reflexivity|discriminate]. }
  exfalso. intuition discriminate.
Qed.

Lemma R_block_lists_EOR_only_witness :
  exists st' v,
    decode "10101010000000010000000000000010" initial = Some st'
    /\ registers st' = <[ParseInt (substring 27 5 "10101010000000010000000000000010") := v]> ∅
    /\ outputFile st' = [].
Proof.
  destruct (R_block_lists_EOR_only "10101010000000010000000000000010" initial
              eq_refl eq_refl ltac:(vm_compute; reflexivity))
    as (st' & v & Hrun & Hreg & _ & Hout).
  exists st', v. split; [exact Hrun|]. split; [exact Hreg|].
  apply Hout. vm_compute. reflexivity.
Defined.


(** X16.  Whatever the input file, a run of [main] that ends has written no
    trace and no memory cell, has left the instruction address at 96, the
    cycle at 1 and [breakFound] false, and its disassembly file holds the
    diagnostics of the malformed lines, in the order of the file, followed
    by at most one line. *)
Theorem main_writes_no_trace (lines : list string) (st : Machine) :
  main lines = Some st ->
  simOutputFile st = [] /\ memory st = ∅
  /\ memLocation st = 96 /\ cycle st = 1 /\ breakFound st = false
  /\ take (List.length (diagnostics lines)) (outputFile st) = diagnostics lines
  /\ (List.length (outputFile st) <= List.length (diagnostics lines) + 1)%nat.
Proof.
  intros H. destruct (main_reach lines st H) as (Hm & Hs & Ha & Hc & Hb & Ho).
  repeat (split; [assumption|]).
  destruct Ho as [->|[line ->]].
  - rewrite firstn_all. split; [reflexivity|lia].
  - rewrite take_app_length, length_app. cbn. split; [reflexivity|lia].
Qed.

Lemma main_writes_no_trace_witness :
  simOutputFile (mkMachine {[2 := 0]} ∅ [] [] 96 1 false) = []
  /\ memory (mkMachine {[2 := 0]} ∅ [] [] 96 1 false) = ∅.
Proof.
  assert (Hrun : main ["10001011000000010000000000000010"]
                 = Some (mkMachine {[2 := 0]} ∅ [] [] 96 1 false))
    by (vm_compute; reflexivity).
  destruct (main_writes_no_trace _ _ Hrun) as (H1 & H2 & _).
  split; [exact H1|exact H2].
Defined.

(** X17.  The I block of [main], with the blocks nested in it, never panics
    on a line of 32 bits.  Whatever the instruction, it advances the
    instruction address by 4, writes no memory cell, adds at most one line
    to the disassembly file, and appends one entry pair to the trace: the
    snapshot shows the registers as the instruction left them and the
    instruction address of the instruction itself. *)
Theorem blockI_on_bits (binaryNumber : string) (st : Machine) :
  String.length binaryNumber = 32%nat ->
  bits binaryNumber = true ->
  exists st' c m,
    blockI binaryNumber st = Some st'
    /\ memLocation st' = wrap64 (memLocation st + 4)
    /\ cycle st' = wrap64 (c + 1)
    /\ memory st' = memory st
    /\ simOutputFile st'
       = (simOutputFile st
          ++ [SimText (simOutput c (memLocation st) m);
              SimState c (memLocation st) m (registers st') (memory st)])%list
    /\ (outputFile st' = outputFile st
        \/ exists line, outputFile st' = (outputFile st ++ [line])%list).
Proof.
  intros Hlen Hb.
  destruct (index_ok binaryNumber 10 ltac:(lia)) as [c10 H10].
  destruct (index_ok binaryNumber 6 ltac:(lia)) as [c6 H6].
  destruct (index_ok binaryNumber 8 ltac:(lia)) as [c8 H8].
  assert (Hs : 0 <= ParseInt (substring 9 2 binaryNumber) < 2 ^ 2).
  { pose proof (ParseInt_bits_range (substring 9 2 binaryNumber)) as R.
    rewrite substring_length in R by (rewrite Hlen; lia).
    apply R; [now apply substring_bits|lia]. }
  assert (Hneg : (wrap64 (ParseInt (substring 9 2 binaryNumber) * 16) <? 0) = false).
  { rewrite wrap64_id by lia. apply Z.ltb_ge. lia. }
  unfold blockI, chainI, blockB, blockCB, blockIM, blockNOP, blockBREAK,
    blockUnknown, traceAndAdvance.
  slices Hlen. rewrite H10. cbn [mbind option_bind].
  repeat match goal with
         | |- context [if ?b then _ else _] =>
             lazymatch b with
             | (_ <? 0) => rewrite Hneg
             | _ => destruct b eqn:?
             end
         | |- context [index binaryNumber 6] => rewrite H6; cbn [mbind option_bind]
         | |- context [index binaryNumber 8] => rewrite H8; cbn [mbind option_bind]
         | _ => progress slices Hlen
         end;
    cbn [mbind option_bind];
    eexists; eexists; eexists; (split; [reflexivity|]);
    cbn [memLocation cycle memory registers outputFile simOutputFile setCycle
         setMemLocation printState writeSim writeOutput setRegister setBreakFound];
    rewrite <- ?app_assoc;
    repeat (split; [reflexivity|]);
    first [left; reflexivity | right; eexists; reflexivity].
Qed.

Lemma blockI_on_bits_witness :
  exists st' c m,
    blockI "10010001000000000001010000100010" initial = Some st'
    /\ memLocation st' = wrap64 (memLocation initial + 4)
    /\ simOutputFile st'
       = [SimText (simOutput c 96 m); SimState c 96 m (registers st') ∅].
Proof.
  destruct (blockI_on_bits "10010001000000000001010000100010" initial eq_refl eq_refl)
    as (st' & c & m & Hrun & Haddr & _ & _ & Hsim & _).
  exists st', c, m. split; [exact Hrun|]. split; [exact Haddr|exact Hsim].
Defined.

(** ** [printState] *)

(** X18.  [printState] shows the registers 0 to 31 and no other: in front
    of the memory it makes 45 writes, the value of register [j] is the
    write of rank [4 + 10 * (j / 8) + j mod 8], a register that was never
    written shows as 0, and two register files that agree on the registers
    0 to 31 give the same text. *)
Theorem printState_shows_32_registers (cycle_ instructionAddr : Z)
    (instruction : string) (registers : gmap Z Z) :
  List.length (printStateRegisters cycle_ instructionAddr instruction registers) = 45%nat
  /\ (forall j, 0 <= j < 32 ->
      printStateRegisters cycle_ instructionAddr instruction registers
        !! Z.to_nat (4 + 10 * (j / 8) + j mod 8)
      = Some (cat [fmtd (readMap registers j); TAB]))
  /\ (forall j, 0 <= j < 32 -> registers !! j = None ->
      printStateRegisters cycle_ instructionAddr instruction registers
        !! Z.to_nat (4 + 10 * (j / 8) + j mod 8)
      = Some (cat ["0"; TAB]))
  /\ (forall registers' : gmap Z Z,
      (forall j, 0 <= j < 32 -> readMap registers' j = readMap registers j) ->
      printStateRegisters cycle_ instructionAddr instruction registers'
      = printStateRegisters cycle_ instructionAddr instruction registers).
Proof.
  assert (Hrank : forall j, 0 <= j < 32 ->
      printStateRegisters cycle_ instructionAddr instruction registers
        !! Z.to_nat (4 + 10 * (j / 8) + j mod 8)
      = Some (cat [fmtd (readMap registers j); TAB])).
  { assert (Hn : forall n, (n < 32)%nat ->
        printStateRegisters cycle_ instructionAddr instruction registers
          !! Z.to_nat (4 + 10 * (Z.of_nat n / 8) + Z.of_nat n mod 8)
        = Some (cat [fmtd (readMap registers (Z.of_nat n)); TAB])).
    { intros n Hn. do 32 (destruct n as [|n]; [reflexivity|]). lia. }
    intros j Hj. specialize (Hn (Z.to_nat j) ltac:(lia)).
    rewrite Z2Nat.id in Hn by lia. exact Hn. }
  split; [reflexivity|]. split; [exact Hrank|]. split.
  - intros j Hj Hnone. rewrite (Hrank j Hj). unfold readMap. now rewrite Hnone.
  - intros registers' H.
    assert (Hrow : forall i, 0 <= i <= 24 ->
               registerRow registers' i = registerRow registers i).
    { intros i Hi. unfold registerRow. do 2 f_equal.
      apply list_fmap_ext. intros n j Hj. apply lookup_seqZ in Hj.
      rewrite H by lia. reflexivity. }
    unfold printStateRegisters. cbn [fmap list_fmap].
    now rewrite !Hrow by lia.
Qed.

Lemma printState_shows_32_registers_witness :
  printStateRegisters 1 96 "ADD" {[2 := 5; 40 := 7]} !! Z.to_nat (4 + 10 * (2 / 8) + 2 mod 8)
  = Some (cat [fmtd (readMap {[2 := 5; 40 := 7]} 2); TAB])
  /\ printStateRegisters 1 96 "ADD" {[2 := 5; 40 := 7]}
     = printStateRegisters 1 96 "ADD" {[2 := 5]}.
Proof.
  destruct (printState_shows_32_registers 1 96 "ADD" {[2 := 5]}) as (_ & _ & _ & H).
  split.
  - apply (proj1 (proj2 (printState_shows_32_registers 1 96 "ADD" {[2 := 5; 40 := 7]}))).
    lia.
  - apply H. intros j Hj. unfold readMap.
    destruct (decide (j = 2)) as [->|Hne]; [reflexivity|].
    rewrite lookup_insert_ne, !lookup_singleton_ne by lia. reflexivity.
Defined.

(** ** The listing keeps the bits of the instruction *)

Lemma beforeTab_bits g t : bits g = true -> beforeTab (g ++ t) = g ++ beforeTab t.
Proof.
  intros Hg. induction g as [|c g IH]; [reflexivity|].
  cbn [bits] in Hg. apply andb_true_iff in Hg. destruct Hg as [Hc Hg].
  change (String c g ++ t) with (String c (g ++ t)). cbn [beforeTab].
  assert (Ascii.eqb c "009" = false) as ->.
  { unfold isBit in Hc. apply orb_true_iff in Hc.
    destruct Hc as [H|H]; apply Ascii.eqb_eq in H; subst c; reflexivity. }
  rewrite (IH Hg). reflexivity.
Qed.

Lemma removeSpaces_bits g t : bits g = true -> removeSpaces (g ++ t) = g ++ removeSpaces t.
Proof.
  intros Hg. induction g as [|c g IH]; [reflexivity|].
  cbn [bits] in Hg. apply andb_true_iff in Hg. destruct Hg as [Hc Hg].
  change (String c g ++ t) with (String c (g ++ t)). cbn [removeSpaces].
  assert (Ascii.eqb c " " = false) as ->.
  { unfold isBit in Hc. apply orb_true_iff in Hc.
    destruct Hc as [H|H]; apply Ascii.eqb_eq in H; subst c; reflexivity. }
  rewrite (IH Hg). reflexivity.
Qed.

Lemma listedBits_group g t :
  bits g = true -> listedBits (g ++ " " ++ t) = g ++ listedBits t.
Proof.
  intros Hg. unfold listedBits. rewrite beforeTab_bits by assumption.
  change (beforeTab (" " ++ t)) with (" " ++ beforeTab t).
  rewrite removeSpaces_bits by assumption. reflexivity.
Qed.

Lemma listedBits_tab t : listedBits (TAB ++ t) = "".
Proof. reflexivity. Qed.

Lemma prec_substring s a n :
  (a + n <= String.length s)%nat -> prec n (substring a n s) = substring a n s.
Proof.
  intros H. unfold prec. apply substring_all. rewrite substring_length; lia.
Qed.

Lemma prec_all s n : (String.length s <= n)%nat -> prec n s = s.
Proof. apply substring_all. Qed.

(** The case analysis of a block that lists its line, and the reading of
    the bit groups of that line. *)
Ltac block_cases H :=
  repeat match type of H with
         | context [index ?s ?k] => destruct (index s k); cbn [mbind option_bind] in H
         | context [if ?b then _ else _] => destruct b; cbn [mbind option_bind] in H
         end;
  try discriminate H; injection H as <-.

Ltac read_groups Hlen Hb :=
  cbn [cat foldr];
  rewrite ?prec_substring by (rewrite Hlen; lia);
  rewrite ?prec_all by (rewrite Hlen; lia);
  rewrite ?listedBits_group by (first [exact Hb | apply substring_bits; exact Hb]);
  rewrite listedBits_tab;
  clear Hb;
  repeat match goal with
         | Hl : String.length ?s = S _ |- _ =>
             destruct s as [|? s]; [discriminate Hl|];
             cbn [String.length] in Hl; apply Nat.succ_inj in Hl
         end;
  match goal with
  | Hl : String.length ?s = 0%nat |- _ =>
      destruct s; [reflexivity|discriminate Hl]
  end.

(** X19.  Every block of [main] that lists a line of 32 bits lists it whole:
    the bit groups in front of the first tab of the line it writes, put
    together, are the 32 bits of the instruction, for the SHIFT, D, B, CB,
    IM, NOP, BREAK and unknown-instruction blocks. *)
Theorem listing_keeps_the_bits (binaryNumber : string) (st st' : Machine)
    (block : string -> Machine -> option Machine) :
  String.length binaryNumber = 32%nat ->
  bits binaryNumber = true ->
  block ∈ [blockSHIFT; blockD; blockB; blockCB; blockIM; blockNOP; blockBREAK;
           blockUnknown] ->
  block binaryNumber st = Some st' ->
  exists line,
    outputFile st' = (outputFile st ++ [line])%list
    /\ listedBits line = binaryNumber.
Proof.
  intros Hlen Hb Hin H.
  repeat (apply elem_of_cons in Hin; destruct Hin as [->|Hin]);
    [| | | | | | | |apply elem_of_nil in Hin; destruct Hin].
  - unfold blockSHIFT in H. revert H. slices Hlen. intros H. block_cases H.
    all: eexists; (split; [reflexivity|]); unfold lsFormat; read_groups Hlen Hb.
  - unfold blockD in H. revert H. slices Hlen. intros H. block_cases H.
    all: eexists; (split; [reflexivity|]); unfold dFormat; read_groups Hlen Hb.
  - unfold blockB in H. revert H. slices Hlen. intros H. block_cases H.
    all: eexists; (split; [reflexivity|]); unfold bFormat; read_groups Hlen Hb.
  - unfold blockCB in H. revert H. slices Hlen. intros H. block_cases H.
    all: eexists; (split; [reflexivity|]); unfold cbFormat; read_groups Hlen Hb.
  - unfold blockIM in H. revert H. slices Hlen. intros H. block_cases H.
    all: eexists; (split; [reflexivity|]); unfold imFormat; read_groups Hlen Hb.
  - unfold blockNOP in H. injection H as <-.
    eexists; (split; [reflexivity|]); unfold nopFormat; read_groups Hlen Hb.
  - unfold blockBREAK in H. revert H. slices Hlen. intros H. injection H as <-.
    eexists; (split; [reflexivity|]); unfold breakFormat; read_groups Hlen Hb.
  - unfold blockUnknown in H. revert H. slices Hlen. intros H. injection H as <-.
    eexists; (split; [reflexivity|]); unfold opcodeUnknown; read_groups Hlen Hb.
Qed.

Lemma listing_keeps_the_bits_witness :
  exists line,
    outputFile (writeOutput
                  (opcodeUnknown "01010101" "010" "10101" "01010" "10101" "010101")
                  initial)
    = [line]
    /\ listedBits line = "01010101010101010101010101010101".
Proof.
  apply (listing_keeps_the_bits "01010101010101010101010101010101" initial _
           blockUnknown eq_refl eq_refl).
  - set_solver.
  - vm_compute. reflexivity.
Defined.

(** ** The branch blocks of [main] *)

Lemma signed_field bn a n c :
  bits bn = true -> (a + S n <= String.length bn)%nat -> (n <= 61)%nat ->
  index bn a = Some c ->
  let u := ParseInt (substring a (S n) bn) in
  let off := if is1 c then u - 2 ^ Z.of_nat (S n) else u in
  - 2 ^ Z.of_nat n <= off < 2 ^ Z.of_nat n
  /\ off mod 2 ^ Z.of_nat (S n) = u
  /\ subLead1 c (Z.of_nat (S n)) u = off.
Proof.
  intros Hb Hlen Hn Hc u off.
  destruct (field_msb bn a n c Hb Hlen Hn Hc) as [Hu Hmsb]. fold u in Hu, Hmsb.
  assert (Hp : 2 ^ Z.of_nat (S n) = 2 * 2 ^ Z.of_nat n)
    by (rewrite Nat2Z.inj_succ, Z.pow_succ_r; lia).
  assert (Hq : 0 < 2 ^ Z.of_nat n <= 2 ^ 61).
  { split; [apply Z.pow_pos_nonneg; lia|apply Z.pow_le_mono_r; lia]. }
  assert (Hoff : - 2 ^ Z.of_nat n <= off < 2 ^ Z.of_nat n).
  { subst off. destruct (is1 c).
    - assert (2 ^ Z.of_nat n <= u) by now apply Hmsb. lia.
    - assert (~ 2 ^ Z.of_nat n <= u) by (intros H; apply Hmsb in H; discriminate). lia. }
  split; [exact Hoff|]. split.
  - subst off. destruct (is1 c).
    + replace (u - 2 ^ Z.of_nat (S n)) with (u + (-1) * 2 ^ Z.of_nat (S n)) by lia.
      rewrite Z.mod_add by lia. apply Z.mod_small. lia.
    + apply Z.mod_small. lia.
  - unfold subLead1. subst off. destruct (is1 c); [|reflexivity].
    apply wrap64_id. lia.
Qed.

(** X20.  On a line of 32 bits the B and CB blocks of [main] read the offset
    field (26 and 19 bits) as a two's-complement number and add it, as it
    is, to the cycle counter: B always, CBZ when the register is zero, CBNZ
    when it is not.  They write one line and leave the registers, the
    memory and the instruction address as they are. *)
Theorem branch_blocks_add_offset_to_cycle (binaryNumber : string) (st : Machine)
    (c6 c8 : ascii) :
  String.length binaryNumber = 32%nat ->
  bits binaryNumber = true ->
  index binaryNumber 6 = Some c6 ->
  index binaryNumber 8 = Some c8 ->
  let u26 := ParseInt (substring 6 26 binaryNumber) in
  let off26 := if is1 c6 then u26 - 2 ^ 26 else u26 in
  let u19 := ParseInt (substring 8 19 binaryNumber) in
  let off19 := if is1 c8 then u19 - 2 ^ 19 else u19 in
  let zero := readMap (registers st) (ParseInt (substring 27 5 binaryNumber)) =? 0 in
  (- 2 ^ 25 <= off26 < 2 ^ 25 /\ off26 mod 2 ^ 26 = u26)
  /\ (- 2 ^ 18 <= off19 < 2 ^ 18 /\ off19 mod 2 ^ 19 = u19)
  /\ (mnemonicIs (substring 0 6 binaryNumber) "B" = true ->
      exists line,
        blockB binaryNumber st
        = Some (writeOutput line (setCycle (wrap64 (cycle st + off26)) st)))
  /\ (mnemonicIs (substring 0 8 binaryNumber) "CBZ" = true ->
      exists line,
        blockCB binaryNumber st
        = Some (writeOutput line
                  (if zero then setCycle (wrap64 (cycle st + off19)) st else st)))
  /\ (mnemonicIs (substring 0 8 binaryNumber) "CBNZ" = true ->
      exists line,
        blockCB binaryNumber st
        = Some (writeOutput line
                  (if zero then st else setCycle (wrap64 (cycle st + off19)) st))).
Proof.
  intros Hlen Hb H6 H8 u26 off26 u19 off19 zero.
  destruct (signed_field binaryNumber 6 25 c6 Hb ltac:(lia) ltac:(lia) H6)
    as (R26 & M26 & S26).
  destruct (signed_field binaryNumber 8 18 c8 Hb ltac:(lia) ltac:(lia) H8)
    as (R19 & M19 & S19).
  change (Z.of_nat 26) with 26 in *. change (Z.of_nat 25) with 25 in *.
  change (Z.of_nat 19) with 19 in *. change (Z.of_nat 18) with 18 in *.
  fold u26 in M26, S26. fold off26 in R26, M26, S26.
  fold u19 in M19, S19. fold off19 in R19, M19, S19.
  split; [split; assumption|]. split; [split; assumption|].
  split; [|split]; intros Hop.
  - unfold blockB. slices Hlen. rewrite H6. cbn [mbind option_bind].
    fold u26. rewrite S26, Hop. eexists. reflexivity.
  - unfold blockCB. slices Hlen. rewrite H8. cbn [mbind option_bind].
    fold u19. rewrite S19, Hop, (mnemonicIs_excl _ "CBZ" "CBNZ" Hop) by discriminate.
    cbn [andb]. fold zero. destruct zero; eexists; reflexivity.
  - unfold blockCB. slices Hlen. rewrite H8. cbn [mbind option_bind].
    fold u19. rewrite S19, Hop, (mnemonicIs_excl _ "CBNZ" "CBZ" Hop) by discriminate.
    cbn [andb]. fold zero. destruct zero; eexists; reflexivity.
Qed.

Lemma branch_blocks_add_offset_to_cycle_witness :
  exists line,
    blockB "00010111111111111111111111111110" initial
    = Some (writeOutput line
              (setCycle
                 (wrap64 (cycle initial
                          + (ParseInt (substring 6 26 "00010111111111111111111111111110")
                             - 2 ^ 26)))
                 initial)).
Proof.
  destruct (branch_blocks_add_offset_to_cycle "00010111111111111111111111111110"
              initial "1" "1" eq_refl eq_refl eq_refl eq_refl)
    as (_ & _ & H & _).
  exact (H ltac:(vm_compute; reflexivity)).
Defined.

(** ** MOVK and the signed immediate, on the paths that can run *)

(** C7.  MOVK does not keep the bits outside its window on any path that
    can run.  The IM case of [simulate] has no MOVK: on the fields of
    MOVK R1, 0x1234, LSL 16 with register 1 holding -1 it overwrites the
    whole register with [0x1234 << 16], where only the 16 bits at position
    16 should change.  A run of [main] on the MOVK line, and the chain of
    [main] from a state where register 1 holds -1, write nothing: the
    IM block is nested in the R-format block and is not reached. *)
Theorem movk_evaluated :
  simulate "IM" ["0001001000110100"; "01"; "00001"] {[1 := -1]} ∅
  = Some ({[1 := 305397760]}, ∅, false)
  /\ Z.lxor (-1) 305397760 = - 305397761
  /\ Z.testbit (Z.lxor (-1) 305397760) 0 = true
  /\ main ["11110010101000100100011010000001"] = Some initial
  /\ decode "11110010101000100100011010000001" (setRegister 1 (-1) initial)
     = Some (setRegister 1 (-1) initial).
Proof. repeat split; vm_compute; reflexivity. Qed.

(** C8.  The 12-bit immediate is not sign-extended on any path that can
    run.  The I case of [simulate] adds the unsigned value of the field:
    the field 100000000000 adds 2048 where -2048 is meant; and it has no
    SUBI: on the fields of SUBI R1, R0, #5 with register 0 holding 9 it
    leaves 14 in register 1, not 4.  A run of [main] on the ADDI line with
    that field writes nothing: the I block is nested in the R-format block
    and is not reached. *)
Theorem signed_immediate_evaluated :
  simulate "I" ["100000000000"; "00000"; "00001"] ∅ ∅
  = Some ({[1 := 2048]}, ∅, false)
  /\ simulate "I" ["000000000101"; "00000"; "00001"] {[0 := 9]} ∅
     = Some ({[0 := 9; 1 := 14]}, ∅, false)
  /\ main ["10010001001000000000000000000001"] = Some initial
  /\ decode "10010001001000000000000000000001" initial = Some initial.
Proof. repeat split; vm_compute; reflexivity. Qed.
